(** * server.js: the cancer-prediction HTTP service

    A shallow embedding of [src/server.js]: the upload middleware
    configuration, [predictClassification], the [POST /predict] callback,
    the local prediction log [predictions.json] and the start-up script.

    JavaScript numbers are IEEE-754 binary64 values; they are modelled with
    the executable [spec_float] operations at precision 53 and maximal
    exponent 1024.  Exceptions are modelled by a result type that carries
    [error.message].  The handler is written in a state-and-exception monad
    over the process state it touches: the global [model], the file
    [predictions.json], and the console lines and HTTP responses it emits. *)

From Stdlib Require Import ZArith List String Bool Lia.
From Stdlib Require Import Floats.SpecFloat.
Import ListNotations.
Open Scope string_scope.
Open Scope Z_scope.

Set Implicit Arguments.
Set Warnings "-register-all".

(** ** JavaScript numbers *)

Module JsNumber.

Definition number := spec_float.

Definition prec : Z := 53.
Definition emax : Z := 1024.

Definition mul (x y : number) : number := SFmul prec emax x y.

(** [a > b] in JavaScript: false as soon as one side is NaN. *)
Definition gt (a b : number) : bool := SFltb b a.

Definition neg_infinity : number := S754_infinity true.
Definition pos_zero : number := S754_zero false.

Definition is_nan (x : number) : bool :=
  match x with S754_nan => true | _ => false end.

Definition is_pos_zero (x : number) : bool :=
  match x with S754_zero false => true | _ => false end.

Definition is_neg_zero (x : number) : bool :=
  match x with S754_zero true => true | _ => false end.

(** The literals of the source, as binary64 values. *)
Definition n100 : number := S754_finite false 7036874417766400 (-46).
Definition n50 : number := S754_finite false 7036874417766400 (-47).

(** Some score values used in examples: 0.5, 0.8, 0.3 and 0.25
    (0.8 and 0.3 are the binary64 numbers nearest to the decimals). *)
Definition n0_5 : number := S754_finite false 4503599627370496 (-53).
Definition n0_25 : number := S754_finite false 4503599627370496 (-54).
Definition n0_8 : number := S754_finite false 7205759403792794 (-53).
Definition n0_3 : number := S754_finite false 5404319552844595 (-54).

(** [Math.max(...values)]: the running maximum starts at [-Infinity]; a NaN
    argument makes the result NaN; [+0] is larger than [-0]. *)
Fixpoint max_from (highest : number) (values : list number) : number :=
  match values with
  | [] => highest
  | x :: rest =>
      if is_nan x then S754_nan
      else if is_pos_zero x && is_neg_zero highest then max_from pos_zero rest
      else if gt x highest then max_from x rest
      else max_from highest rest
  end.

Definition Math_max (values : list number) : number :=
  max_from neg_infinity values.

End JsNumber.

(** ** Exceptions *)

(** The outcome of a JavaScript computation: a value, or a thrown [Error]
    identified by its [message]. *)
Inductive Result (A : Type) : Type :=
| Ok (a : A)
| Throw (message : string).

Arguments Ok {A} a.
Arguments Throw {A} message.

Definition bindR {A B : Type} (r : Result A) (k : A -> Result B) : Result B :=
  match r with
  | Ok a => k a
  | Throw m => Throw m
  end.

(** ** The classification policy of [predictClassification] (lines 56-64) *)

Record Classification : Type := mkClassification {
  label : string;
  suggestion : string
}.

Definition confidenceScore (score : list JsNumber.number) : JsNumber.number :=
  JsNumber.mul (JsNumber.Math_max score) JsNumber.n100.

Definition isCancer (score : list JsNumber.number) : bool :=
  JsNumber.gt (confidenceScore score) JsNumber.n50.

Definition classify (score : list JsNumber.number) : Classification :=
  let label := if isCancer score then "Cancer" else "Non-cancer" in
  let suggestion :=
    if isCancer score
    then "Segera periksa ke dokter!"
    else "Penyakit kanker tidak terdeteksi." in
  mkClassification label suggestion.

(** ** JSON values, response bodies and file texts *)

Inductive Json : Type :=
| JNull
| JBool (b : bool)
| JNum (n : JsNumber.number)
| JStr (s : string)
| JArr (items : list Json)
| JObj (fields : list (string * Json)).

(** A text handed to [JSON.parse] or produced by [JSON.stringify] is
    represented by what the parser makes of it: the empty string, a text that
    parses to a value, or a non-empty text that the parser rejects. *)
Inductive Text : Type :=
| EmptyText
| JsonText (v : Json)
| BrokenText.

Definition JSON_parse (t : Text) : Result Json :=
  match t with
  | JsonText v => Ok v
  | EmptyText => Throw "Unexpected end of JSON input"
  | BrokenText => Throw "Unexpected token in JSON"
  end.

Definition JSON_stringify (v : Json) : Text := JsonText v.

(** [text || '[]']: the empty string is falsy. *)
Definition or_empty_array (t : Text) : Text :=
  match t with
  | EmptyText => JsonText (JArr [])
  | _ => t
  end.

(** [predictions.push(doc)]: only an array has [push]. *)
Definition push (predictions : Json) (doc : Json) : Result Json :=
  match predictions with
  | JArr items => Ok (JArr (items ++ [doc]))
  | _ => Throw "predictions.push is not a function"
  end.

(** ** The upload middleware (lines 9-19) *)

Definition Buffer : Type := list Byte.byte.

Definition byteLength (b : Buffer) : Z := Z.of_nat (List.length b).

(** One file part of a multipart form. *)
Record FilePart : Type := mkFilePart {
  fieldname : string;
  mimetype : string;
  buffer : Buffer
}.

(** What the middleware hands to its callback as [err]: an instance of
    [multer.MulterError] with its [code], or another [Error] with its
    [message]. *)
Inductive UploadError : Type :=
| MulterError (code : string)
| PlainError (message : string).

(** A [POST /predict] request.  A body that is not a multipart form is
    passed on untouched.  A multipart form is described by its file parts in
    the order they arrive.  [Aborted err] stands for every request on which
    the middleware gives up for a reason that lies outside its file parts:
    the multipart parser fails (no boundary, a body that ends early) or a
    text field exceeds a limit; [err] is what the callback then receives. *)
Inductive Request : Type :=
| NotMultipart
| Multipart (files : list FilePart)
| Aborted (err : UploadError).

(** [err] and [req.file] as the callback of [upload] sees them. *)
Inductive UploadResult : Type :=
| UploadFailed (err : UploadError)
| UploadDone (file : option FilePart).

Definition fileSize : Z := 1000000.

Definition allowedTypes : list string := ["image/jpeg"; "image/png"].

Definition includes (l : list string) (s : string) : bool :=
  existsb (String.eqb s) l.

(** The [fileFilter] option: [cb(null, true)] or [cb(new Error(...))]. *)
Definition fileFilter (file : FilePart) : Result bool :=
  if includes allowedTypes (mimetype file)
  then Ok true
  else Throw "Invalid file type. Only JPEG and PNG are allowed.".

(** multer's [.single(name)] with in-memory storage, for the options of the
    source.  Each file part is first checked against the expected field (one
    file named [name] at most), then given to [fileFilter], then read up to
    [limits.fileSize]; the first failure aborts the upload.  [req.file] is the
    accepted file, if any.  A file of more than [limits.fileSize] bytes is
    refused by every release of the library; at exactly [limits.fileSize]
    bytes the releases differ, and the file is taken as accepted here. *)
Fixpoint single_from (name : string) (filesLeft : nat) (accepted : option FilePart)
    (parts : list FilePart) : UploadResult :=
  match parts with
  | [] => UploadDone accepted
  | part :: rest =>
      match filesLeft with
      | O => UploadFailed (MulterError "LIMIT_UNEXPECTED_FILE")
      | S remaining =>
          if negb (String.eqb (fieldname part) name)
          then UploadFailed (MulterError "LIMIT_UNEXPECTED_FILE")
          else
            match fileFilter part with
            | Throw message => UploadFailed (PlainError message)
            | Ok false => single_from name remaining accepted rest
            | Ok true =>
                if fileSize <? byteLength (buffer part)
                then UploadFailed (MulterError "LIMIT_FILE_SIZE")
                else single_from name remaining
                       (match accepted with Some f => Some f | None => Some part end)
                       rest
            end
      end
  end.

Definition upload (req : Request) : UploadResult :=
  match req with
  | NotMultipart => UploadDone None
  | Multipart files => single_from "image" 1 None files
  | Aborted err => UploadFailed err
  end.

(** ** The TensorFlow binding *)

(** [@tensorflow/tfjs-node] is used through this interface.  Every operation
    may throw; nothing else is assumed about it. *)
Class TensorFlow : Type := {
  Tensor : Type;
  GraphModel : Type;
  decodeJpeg : Buffer -> Result Tensor;
  resizeNearestNeighbor : Tensor -> Z * Z -> Result Tensor;
  expandDims : Tensor -> Result Tensor;
  toFloat : Tensor -> Result Tensor;
  predict : GraphModel -> Tensor -> Result Tensor;
  data : Tensor -> Result (list JsNumber.number)
}.

(** ** Process state, effects and the handler monad *)

(** What the process does to the outside, in the order it does it. *)
Inductive Effect : Type :=
| ConsoleLog (args : list Json)
| ConsoleError (args : list Json)
| FileWritten (text : Text)
| Respond (status : Z) (body : Json)
| Listening (port : string).

(** How one call of [fs.writeFileSync] ends.  The call opens the file with
    flag ['w'] (create or truncate) and then writes the text: it can fail
    before the file is touched, or after the truncation, leaving nothing
    ([partial = false]) or an incomplete text ([partial = true]). *)
Inductive WriteOutcome : Type :=
| Written
| Refused (message : string)
| CutShort (message : string) (partial : bool).

(** What one request draws from its surroundings: the value of [uuidv4()],
    of [new Date().toISOString()], and the behaviour of the file system. *)
Record Ambient : Type := mkAmbient {
  uuid : string;
  timestamp : string;
  read_error : option string;
  write_outcome : WriteOutcome
}.

(** How a statement completes: normally, by a thrown error, or by
    [process.exit]. *)
Inductive Completion (A : Type) : Type :=
| Normal (a : A)
| Abrupt (message : string)
| Exited (code : Z).

Arguments Normal {A} a.
Arguments Abrupt {A} message.
Arguments Exited {A} code.

Section Server.

Context {tf : TensorFlow}.

(** The global [model] (undefined until [loadModel] assigns it) and the
    file [predictions.json] ([None]: no such file). *)
Record World : Type := mkWorld {
  model : option GraphModel;
  predictions_json : option Text
}.

Record Outcome (A : Type) : Type := mkOutcome {
  completion : Completion A;
  world : World;
  effects : list Effect
}.

Definition M (A : Type) : Type := World -> Outcome A.

Definition ret {A : Type} (a : A) : M A :=
  fun w => mkOutcome (Normal a) w [].

Definition bind {A B : Type} (c : M A) (k : A -> M B) : M B :=
  fun w =>
    let o := c w in
    match completion o with
    | Normal a =>
        let o' := k a (world o) in
        mkOutcome (completion o') (world o') (effects o ++ effects o')
    | Abrupt m => mkOutcome (Abrupt m) (world o) (effects o)
    | Exited c => mkOutcome (Exited c) (world o) (effects o)
    end.

Definition lift {A : Type} (r : Result A) : M A :=
  fun w =>
    match r with
    | Ok a => mkOutcome (Normal a) w []
    | Throw m => mkOutcome (Abrupt m) w []
    end.

(** [try { body } catch (error) { handler }]; [process.exit] is not caught. *)
Definition try_catch {A : Type} (body : M A) (handler : string -> M A) : M A :=
  fun w =>
    let o := body w in
    match completion o with
    | Abrupt m =>
        let o' := handler m (world o) in
        mkOutcome (completion o') (world o') (effects o ++ effects o')
    | _ => o
    end.

Definition emit (e : Effect) : M unit :=
  fun w => mkOutcome (Normal tt) w [e].

Definition console_log (args : list Json) : M unit := emit (ConsoleLog args).
Definition console_error (args : list Json) : M unit := emit (ConsoleError args).

(** [res.status(status).json(body)] *)
Definition respond (status : Z) (body : Json) : M unit := emit (Respond status body).

Definition process_exit {A : Type} (code : Z) : M A :=
  fun w => mkOutcome (Exited code) w [].

Definition get_model : M (option GraphModel) :=
  fun w => mkOutcome (Normal (model w)) w [].

Definition set_model (m : GraphModel) : M unit :=
  fun w => mkOutcome (Normal tt) (mkWorld (Some m) (predictions_json w)) [].

(** [fs.readFileSync('predictions.json', 'utf-8')] *)
Definition readFileSync (env : Ambient) : M Text :=
  fun w =>
    match read_error env with
    | Some m => mkOutcome (Abrupt m) w []
    | None =>
        match predictions_json w with
        | None =>
            mkOutcome
              (Abrupt "ENOENT: no such file or directory, open 'predictions.json'")
              w []
        | Some t => mkOutcome (Normal t) w []
        end
    end.

(** [fs.writeFileSync('predictions.json', text)] *)
Definition writeFileSync (env : Ambient) (text : Text) : M unit :=
  fun w =>
    match write_outcome env with
    | Written =>
        mkOutcome (Normal tt) (mkWorld (model w) (Some text)) [FileWritten text]
    | Refused m => mkOutcome (Abrupt m) w []
    | CutShort m partial =>
        mkOutcome (Abrupt m)
          (mkWorld (model w) (Some (if partial then BrokenText else EmptyText))) []
    end.

Declare Scope js_scope.
Delimit Scope js_scope with js.
Notation "x <- c ;; k" := (bind c (fun x => k))
  (at level 61, c at next level, right associativity) : js_scope.
Notation "c ;; k" := (bind c (fun _ => k))
  (at level 61, right associativity) : js_scope.
Local Open Scope js_scope.

(** *** [predictClassification] (lines 46-68) *)

Definition preprocess (image : Buffer) : Result Tensor :=
  bindR (decodeJpeg image) (fun decoded =>
  bindR (resizeNearestNeighbor decoded (224, 224)) (fun resized =>
  bindR (expandDims resized) (fun batched =>
  toFloat batched))).

Definition model_predict (model : option GraphModel) (tensor : Tensor)
    : Result Tensor :=
  match model with
  | Some m => predict m tensor
  | None => Throw "Cannot read properties of undefined (reading 'predict')"
  end.

Definition predictClassification (model : option GraphModel) (image : Buffer)
    : Result Classification :=
  match
    bindR (preprocess image) (fun tensor =>
    bindR (model_predict model tensor) (fun prediction =>
    bindR (data prediction) (fun score =>
    Ok (classify score))))
  with
  | Ok c => Ok c
  | Throw message => Throw ("Terjadi kesalahan input: " ++ message)
  end.

(** *** The [POST /predict] callback (lines 72-126) *)

Definition fail_body (message : string) : Json :=
  JObj [("status", JStr "fail"); ("message", JStr message)].

Definition too_large_message : string :=
  "Payload content length greater than maximum allowed: 1000000".

Definition prediction_failed_message : string :=
  "Terjadi kesalahan dalam melakukan prediksi".

Definition predictionDoc (env : Ambient) (c : Classification) : Json :=
  JObj [("id", JStr (uuid env));
        ("result", JStr (label c));
        ("suggestion", JStr (suggestion c));
        ("createdAt", JStr (timestamp env))].

Definition success_body (doc : Json) : Json :=
  JObj [("status", JStr "success");
        ("message", JStr "Model is predicted successfully");
        ("data", doc)].

(** Lines 108-110: read the whole log, push, write the whole log back. *)
Definition savePrediction (env : Ambient) (doc : Json) : M unit :=
  text <- readFileSync env ;;
  predictions <- lift (JSON_parse (or_empty_array text)) ;;
  predictions <- lift (push predictions doc) ;;
  writeFileSync env (JSON_stringify predictions).

Definition predict_callback (env : Ambient) (result : UploadResult) : M unit :=
  match result with
  | UploadFailed (MulterError code) =>
      console_error [JStr "Multer error:"; JStr code] ;;
      respond 413 (fail_body too_large_message)
  | UploadFailed (PlainError message) =>
      console_error [JStr "Error:"; JStr message] ;;
      respond 400 (fail_body message)
  | UploadDone None =>
      console_error [JStr "No file uploaded"] ;;
      respond 400 (fail_body "No file uploaded")
  | UploadDone (Some file) =>
      let imageBuffer := buffer file in
      try_catch
        (model <- get_model ;;
         c <- lift (predictClassification model imageBuffer) ;;
         let doc := predictionDoc env c in
         savePrediction env doc ;;
         console_log [JStr "Prediction saved locally:"; doc] ;;
         respond 201 (success_body doc))
        (fun error =>
           console_error [JStr "Prediction error:"; JStr error] ;;
           respond 400 (fail_body prediction_failed_message))
  end.

Definition post_predict (env : Ambient) (req : Request) : M unit :=
  predict_callback env (upload req).

(** The error-handling middleware (lines 130-142), for an error with the
    given [code] and [message]. *)
Definition error_middleware (code : option string) (message : string) : M unit :=
  match code with
  | Some c =>
      if String.eqb c "LIMIT_FILE_SIZE"
      then respond 413 (fail_body too_large_message)
      else console_error [JStr "Unhandled error:"; JStr message] ;;
           respond 500 (fail_body "Internal server error")
  | None =>
      console_error [JStr "Unhandled error:"; JStr message] ;;
      respond 500 (fail_body "Internal server error")
  end.

(** *** Start-up (lines 33-43 and 145-149) *)

(** [process.env.PORT || 3000] *)
Definition PORT (env_PORT : option string) : string :=
  match env_PORT with
  | None => "3000"
  | Some p => if String.eqb p "" then "3000" else p
  end.

(** [loaded] is how [tf.loadGraphModel('../ml/model.json')] ends. *)
Definition loadModel (loaded : Result GraphModel) : M unit :=
  try_catch
    (console_log [JStr "Loading model..."] ;;
     m <- lift loaded ;;
     set_model m ;;
     console_log [JStr "Model loaded successfully"])
    (fun error =>
       console_error [JStr "Error loading model:"; JStr error] ;;
       process_exit 1).

(** [app.listen(port, callback)]: the server binds the port, and the
    callback runs once it is listening. *)
Definition listen (port : string) (callback : M unit) : M unit :=
  emit (Listening port) ;; callback.

Definition start (env_PORT : option string) (loaded : Result GraphModel) : M unit :=
  listen (PORT env_PORT)
    (loadModel loaded ;;
     console_log [JStr ("Server is running on port " ++ PORT env_PORT)]).

(** *** Sequences of requests *)

(** The records of the stored log, as a later request would read them. *)
Definition stored (w : World) : list Json :=
  match predictions_json w with
  | Some EmptyText => []
  | Some (JsonText (JArr items)) => items
  | _ => []
  end.

Definition responses (es : list Effect) : list (Z * Json) :=
  flat_map (fun e => match e with Respond s b => [(s, b)] | _ => [] end) es.

(** Requests are served one after the other, each with its own
    surroundings; the result is the final state and all effects.  (The log
    statements of a request are synchronous: they run without another
    request in between.) *)
Fixpoint serve (reqs : list (Ambient * Request)) (w : World) : World * list Effect :=
  match reqs with
  | [] => (w, [])
  | (env, req) :: rest =>
      let o := post_predict env req w in
      let '(w', es) := serve rest (world o) in
      (w', (effects o ++ es)%list)
  end.

End Server.

Arguments World {tf}.
Arguments mkWorld {tf} model predictions_json.

(** ** A small TensorFlow binding for concrete runs

    Tensors are either the bytes of a decoded image or a list of scores; a
    model is the list of scores it answers with.  Decoding rejects the empty
    buffer. *)
Module Stub.

Inductive tensor : Type :=
| Pixels (b : Buffer)
| Scores (s : list JsNumber.number).

Definition decode (b : Buffer) : Result tensor :=
  match b with
  | [] => Throw "Expected image, got empty file"
  | _ => Ok (Pixels b)
  end.

Definition run (m : list JsNumber.number) (t : tensor) : Result tensor :=
  match t with
  | Pixels _ => Ok (Scores m)
  | Scores _ => Throw "Input tensor has the wrong rank"
  end.

Definition read (t : tensor) : Result (list JsNumber.number) :=
  match t with
  | Scores s => Ok s
  | Pixels _ => Throw "Not a prediction"
  end.

Definition binding : TensorFlow := {|
  Tensor := tensor;
  GraphModel := list JsNumber.number;
  decodeJpeg := decode;
  resizeNearestNeighbor := fun t _ => Ok t;
  expandDims := fun t => Ok t;
  toFloat := fun t => Ok t;
  predict := run;
  data := read
|}.

Definition bytes3 : Buffer := [Byte.xff; Byte.xd8; Byte.xff].

Definition jpeg : FilePart := mkFilePart "image" "image/jpeg" bytes3.
Definition png : FilePart := mkFilePart "image" "image/png" bytes3.
Definition gif : FilePart := mkFilePart "image" "image/gif" bytes3.
Definition photo : FilePart := mkFilePart "photo" "image/jpeg" bytes3.
Definition empty_jpeg : FilePart := mkFilePart "image" "image/jpeg" [].

Definition big (n : Z) : Buffer := repeat Byte.x00 (Z.to_nat n).
Definition big_jpeg : FilePart := mkFilePart "image" "image/jpeg" (big 1000001).
Definition big_gif : FilePart := mkFilePart "image" "image/gif" (big 1000001).

Definition env : Ambient :=
  mkAmbient "0b8c2f6e-3c1d-4f8a-9a57-2d1f0c9e7b11" "2024-05-01T10:00:00.000Z"
    None Written.

Definition env_later : Ambient :=
  mkAmbient "9e2b6c1a-41d7-4b0e-b7a3-0f5d8c2e6a44" "2024-05-01T10:00:09.000Z"
    None Written.

Definition env_read_only : Ambient :=
  mkAmbient "c4a1e0b2-6f3d-4e5a-8b7c-1d2e3f4a5b6c" "2024-05-01T10:00:03.000Z"
    None (Refused "EROFS: read-only file system, open 'predictions.json'").

Definition env_disk_full : Ambient :=
  mkAmbient "5d0e7a7c-7a55-4c0e-8a39-64a4f3b0c1d2" "2024-05-01T10:00:05.000Z"
    None (CutShort "ENOSPC: no space left on device, write" false).

Definition old_doc : Json :=
  JObj [("id", JStr "a3f1c2d4-0000-4000-8000-000000000001");
        ("result", JStr "Non-cancer");
        ("suggestion", JStr "Penyakit kanker tidak terdeteksi.");
        ("createdAt", JStr "2024-04-30T08:00:00.000Z")].

Definition cancer_model : list JsNumber.number := [JsNumber.n0_8; JsNumber.n0_25].
Definition benign_model : list JsNumber.number := [JsNumber.n0_3; JsNumber.n0_25].

Definition world_of (m : option (list JsNumber.number)) (f : option Text)
    : @World binding :=
  @mkWorld binding m f.

End Stub.

(** ** Named values used in the statements *)

Definition cancer : Classification :=
  mkClassification "Cancer" "Segera periksa ke dokter!".

Definition non_cancer : Classification :=
  mkClassification "Non-cancer" "Penyakit kanker tidak terdeteksi.".

(** [x <= y] on numbers; false as soon as one side is NaN. *)
Definition leq (x y : JsNumber.number) : Prop := SFleb x y = true.

Definition nan_free (values : list JsNumber.number) : Prop :=
  Forall (fun x => JsNumber.is_nan x = false) values.


(** [Subseq l1 l2]: [l1] is obtained from [l2] by dropping elements. *)
Inductive Subseq {A : Type} : list A -> list A -> Prop :=
| Subseq_nil : Subseq [] []
| Subseq_drop (x : A) (l1 l2 : list A) : Subseq l1 l2 -> Subseq l1 (x :: l2)
| Subseq_keep (x : A) (l1 l2 : list A) : Subseq l1 l2 -> Subseq (x :: l1) (x :: l2).

Section Statements.

Context {tf : TensorFlow}.

(** The record that the inference of a request yields, when the upload is
    accepted and [predictClassification] returns. *)
Definition inference (m : option GraphModel) (env : Ambient) (req : Request)
    : option Json :=
  match upload req with
  | UploadDone (Some file) =>
      match predictClassification m (buffer file) with
      | Ok c => Some (predictionDoc env c)
      | Throw _ => None
      end
  | _ => None
  end.

(** The records of the successful inferences of a sequence of requests. *)
Definition inferences (m : option GraphModel) (reqs : list (Ambient * Request))
    : list Json :=
  flat_map (fun r => match inference m (fst r) (snd r) with
                     | Some doc => [doc]
                     | None => []
                     end) reqs.

(** The records carried by the [201] responses among some effects. *)
Definition created (es : list Effect) : list Json :=
  flat_map (fun e => match e with
                     | Respond 201 (JObj [_; _; (_, doc)]) => [doc]
                     | _ => []
                     end) es.

(** Some file part is larger than [limits.fileSize]. *)
Definition oversized (req : Request) : Prop :=
  match req with
  | NotMultipart => False
  | Multipart files => Exists (fun p => fileSize < byteLength (buffer p)) files
  | Aborted _ => False
  end.

(** Every file part declares one of the allowed types. *)
Definition declared_allowed (req : Request) : Prop :=
  match req with
  | NotMultipart => True
  | Multipart files =>
      Forall (fun p => includes allowedTypes (mimetype p) = true) files
  | Aborted _ => True
  end.

(** The request carries no file part in the field [image]. *)
Definition no_image_field (req : Request) : Prop :=
  match req with
  | NotMultipart => True
  | Multipart files => Forall (fun p => fieldname p <> "image") files
  | Aborted _ => True
  end.

(** Decoding or inference throws [message] on [image]. *)
Definition decode_or_inference_throws (m : option GraphModel) (image : Buffer)
    (message : string) : Prop :=
  preprocess image = Throw message \/
  exists tensor, preprocess image = Ok tensor /\
    (model_predict m tensor = Throw message \/
     exists prediction, model_predict m tensor = Ok prediction /\
                        data prediction = Throw message).

End Statements.

(** ** Further notions used in the statements *)

(** A record as the handler builds it: the four fields in order, with one of
    the two label and suggestion pairs. *)
Definition well_formed_record (doc : Json) : Prop :=
  exists id createdAt c,
    (c = cancer \/ c = non_cancer) /\
    doc = JObj [("id", JStr id);
                ("result", JStr (label c));
                ("suggestion", JStr (suggestion c));
                ("createdAt", JStr createdAt)].

(** The file system serves the request: the read and the write go through. *)
Definition dependable (env : Ambient) : Prop :=
  read_error env = None /\ write_outcome env = Written.

Section LogStates.

Context {tf : TensorFlow}.

(** The log file holds the empty text or a JSON array. *)
Definition usable_log (w : World) : Prop :=
  predictions_json w = Some EmptyText \/
  exists items, predictions_json w = Some (JsonText (JArr items)).

(** The log file is missing, is not JSON, or is JSON but not an array. *)
Definition unusable_log (w : World) : Prop :=
  match predictions_json w with
  | None => True
  | Some EmptyText => False
  | Some BrokenText => True
  | Some (JsonText (JArr _)) => False
  | Some (JsonText _) => True
  end.

End LogStates.

(** * Facts about numbers and [Math.max] *)

Module JsNumberFacts.
Import JsNumber.

Lemma compare_antisym (x y : number) :
  SFcompare y x = option_map CompOpp (SFcompare x y).
Proof.
  destruct x as [sx|sx| |sx mx ex], y as [sy|sy| |sy my ey]; simpl;
    try reflexivity;
    try (destruct sx; reflexivity);
    try (destruct sy; reflexivity);
    try (destruct sx, sy; reflexivity).
  change (Pos.compare_cont Eq) with Pos.compare.
  destruct sx, sy; simpl; try reflexivity;
    rewrite (Z.compare_antisym ex ey);
    destruct (ex ?= ey); simpl; try reflexivity;
    rewrite (Pos.compare_antisym mx my);
    destruct (mx ?= my)%positive; reflexivity.
Qed.

Lemma eqb_not_gt (x y : number) : SFeqb x y = true -> gt x y = false.
Proof.
  unfold SFeqb, gt, SFltb. rewrite (compare_antisym x y).
  destruct (SFcompare x y) as [[ | | ]|]; simpl; congruence.
Qed.

Lemma leq_refl (x : number) : is_nan x = false -> leq x x.
Proof.
  unfold leq, SFleb.
  destruct x as [s|s| |s m e]; simpl; try discriminate; try reflexivity.
  - destruct s; reflexivity.
  - intros _. destruct s; rewrite Z.compare_refl;
      change (Pos.compare_cont Eq m m) with (Pos.compare m m);
      rewrite Pos.compare_refl; reflexivity.
Qed.

(** Without NaN the order is total: [x > h] fails only when [x <= h]. *)
Lemma not_gt_leq (x h : number) :
  is_nan x = false -> is_nan h = false -> gt x h = false -> leq x h.
Proof.
  unfold gt, leq, SFltb, SFleb. rewrite (compare_antisym x h).
  destruct x as [sx|sx| |sx mx ex], h as [sh|sh| |sh mh eh]; simpl;
    try discriminate; intros _ _;
    try (destruct sx; simpl; congruence);
    try (destruct sh; simpl; congruence);
    try (destruct sx, sh; simpl; congruence).
  destruct sx, sh; simpl; try congruence;
    destruct (ex ?= eh); simpl; try congruence;
    destruct (Pos.compare_cont Eq mx mh); simpl; congruence.
Qed.

Lemma gt_leq (x h : number) : gt x h = true -> leq h x.
Proof.
  unfold gt, leq, SFltb, SFleb.
  destruct (SFcompare h x) as [[ | | ]|]; congruence.
Qed.

Lemma leq_trans (x y z : number) : leq x y -> leq y z -> leq x z.
Proof.
  unfold leq, SFleb.
  destruct x as [sx|sx| |sx mx ex], y as [sy|sy| |sy my ey],
           z as [sz|sz| |sz mz ez]; simpl;
    try discriminate; try reflexivity;
    try (destruct sx; simpl; try discriminate; try reflexivity);
    try (destruct sy; simpl; try discriminate; try reflexivity);
    try (destruct sz; simpl; try discriminate; try reflexivity);
    change (Pos.compare_cont Eq) with Pos.compare;
    destruct (Z.compare_spec ex ey), (Z.compare_spec ey ez),
             (Z.compare_spec ex ez);
    try discriminate; try reflexivity; try lia; subst;
    destruct (Pos.compare_spec mx my), (Pos.compare_spec my mz),
             (Pos.compare_spec mx mz);
    simpl; try discriminate; try reflexivity; lia.
Qed.

Lemma max_from_nan (values : list number) :
  forall highest, Exists (fun x => is_nan x = true) values ->
                  max_from highest values = S754_nan.
Proof.
  induction values as [|x rest IH]; intros highest H.
  - inversion H.
  - simpl. destruct (is_nan x) eqn:Hx; [reflexivity|].
    inversion H as [? ? Hn|? ? Hr]; subst; [congruence|].
    destruct (is_pos_zero x && is_neg_zero highest);
      [|destruct (gt x highest)]; apply IH; assumption.
Qed.

(** Without NaN, the result bounds the start value and every argument. *)
Lemma max_from_bound (values : list number) :
  forall highest,
    is_nan highest = false -> nan_free values ->
    leq highest (max_from highest values) /\
    Forall (fun x => leq x (max_from highest values)) values.
Proof.
  induction values as [|x rest IH]; intros highest Hh Hv.
  - simpl. split; [apply leq_refl; assumption|constructor].
  - inversion Hv as [|? ? Hx Hrest]; subst. simpl. rewrite Hx.
    destruct (is_pos_zero x && is_neg_zero highest) eqn:Hz.
    + apply andb_true_iff in Hz. destruct Hz as [Hzx Hzh].
      destruct x as [[|]| | |]; try discriminate.
      destruct highest as [[|]| | |]; try discriminate.
      destruct (IH pos_zero eq_refl Hrest) as [H1 H2].
      split; [|constructor; [exact H1|exact H2]].
      apply leq_trans with (y := pos_zero); [reflexivity|exact H1].
    + destruct (gt x highest) eqn:Hg.
      * destruct (IH x Hx Hrest) as [H1 H2].
        split; [|constructor; [exact H1|exact H2]].
        apply leq_trans with (y := x); [apply gt_leq; exact Hg|exact H1].
      * destruct (IH highest Hh Hrest) as [H1 H2].
        split; [exact H1|constructor; [|exact H2]].
        apply leq_trans with (y := highest);
          [apply not_gt_leq; assumption|exact H1].
Qed.

(** The result is the start value or one of the arguments. *)
Lemma max_from_in (values : list number) :
  forall highest,
    nan_free values ->
    max_from highest values = highest \/ In (max_from highest values) values.
Proof.
  induction values as [|x rest IH]; intros highest Hv.
  - left. reflexivity.
  - inversion Hv as [|? ? Hx Hrest]; subst. simpl. rewrite Hx.
    destruct (is_pos_zero x && is_neg_zero highest) eqn:Hz.
    + apply andb_true_iff in Hz. destruct Hz as [Hzx _].
      destruct x as [[|]| | |]; try discriminate.
      destruct (IH pos_zero Hrest) as [H|H];
        [right; left; symmetry; exact H|right; right; exact H].
    + destruct (gt x highest).
      * destruct (IH x Hrest) as [H|H];
          [right; left; symmetry; exact H|right; right; exact H].
      * destruct (IH highest Hrest) as [H|H];
          [left; exact H|right; right; exact H].
Qed.

(** [Math.max] of a NaN-free, non-empty list is one of its elements and
    bounds all of them. *)
Lemma Math_max_is_maximum (values : list number) :
  nan_free values -> values <> [] ->
  In (Math_max values) values /\
  Forall (fun x => leq x (Math_max values)) values.
Proof.
  intros Hv Hne. unfold Math_max.
  destruct (max_from_bound neg_infinity eq_refl Hv) as [_ Hb].
  split; [|exact Hb].
  destruct (max_from_in neg_infinity Hv) as [H|H]; [|exact H].
  destruct values as [|x rest]; [congruence|].
  inversion Hb as [|? ? Hx _]; subst. rewrite H in Hx.
  inversion Hv as [|? ? Hn _]; subst.
  left. unfold leq, SFleb in Hx.
  destruct x as [s|s| |s m e]; simpl in *; try discriminate;
    try (destruct s; discriminate).
  destruct s; [symmetry; exact H|discriminate].
Qed.

Lemma Math_max_nan (values : list number) :
  Exists (fun x => is_nan x = true) values -> Math_max values = S754_nan.
Proof. apply max_from_nan. Qed.

End JsNumberFacts.

(** * The classification policy *)

Lemma classify_cases (score : list JsNumber.number) :
  classify score = if isCancer score then cancer else non_cancer.
Proof. unfold classify. destruct (isCancer score); reflexivity. Qed.

Lemma classify_two (score : list JsNumber.number) :
  classify score = cancer \/ classify score = non_cancer.
Proof. rewrite classify_cases. destruct (isCancer score); auto. Qed.

(** C2. The classification policy.  The confidence is [Math.max] of the
    scores times 100, where 100 and 50 are the binary64 values of these
    integers; [Math.max] of a non-empty vector without NaN is a score of the
    vector that is at least as large as every score, and it is NaN as soon
    as one score is NaN.  When the confidence is strictly greater than 50
    the result is "Cancer" with the urgent-care suggestion; in every other
    case, a confidence equal to 50 included, it is "Non-cancer" with the
    not-detected suggestion.  The result depends on the score vector only,
    through its maximum. *)
Theorem classification_threshold (score : list JsNumber.number) :
  confidenceScore score =
    SFmul 53 1024 (JsNumber.Math_max score) (binary_normalize 53 1024 100 0 false) /\
  JsNumber.n50 = binary_normalize 53 1024 50 0 false /\
  (nan_free score -> score <> [] ->
   In (JsNumber.Math_max score) score /\
   Forall (fun x => leq x (JsNumber.Math_max score)) score) /\
  (Exists (fun x => JsNumber.is_nan x = true) score ->
   JsNumber.Math_max score = S754_nan) /\
  (SFcompare (binary_normalize 53 1024 50 0 false)
     (SFmul 53 1024 (JsNumber.Math_max score) (binary_normalize 53 1024 100 0 false)) =
   Some Lt ->
   classify score = mkClassification "Cancer" "Segera periksa ke dokter!") /\
  (SFcompare (binary_normalize 53 1024 50 0 false)
     (SFmul 53 1024 (JsNumber.Math_max score) (binary_normalize 53 1024 100 0 false)) <>
   Some Lt ->
   classify score =
   mkClassification "Non-cancer" "Penyakit kanker tidak terdeteksi.") /\
  (SFeqb (SFmul 53 1024 (JsNumber.Math_max score) (binary_normalize 53 1024 100 0 false))
     (binary_normalize 53 1024 50 0 false) = true ->
   classify score =
   mkClassification "Non-cancer" "Penyakit kanker tidak terdeteksi.") /\
  (forall score',
     JsNumber.Math_max score' = JsNumber.Math_max score ->
     classify score' = classify score).
Proof.
  change (binary_normalize 53 1024 100 0 false) with JsNumber.n100.
  change (binary_normalize 53 1024 50 0 false) with JsNumber.n50.
  split; [reflexivity|]. split; [reflexivity|].
  split; [intros Hv Hne; apply JsNumberFacts.Math_max_is_maximum; assumption|].
  split; [apply JsNumberFacts.Math_max_nan|].
  rewrite classify_cases. unfold isCancer, confidenceScore, JsNumber.gt, JsNumber.mul.
  change JsNumber.prec with 53. change JsNumber.emax with 1024.
  repeat split.
  - intros H. unfold SFltb. rewrite H. reflexivity.
  - intros H. unfold SFltb.
    destruct (SFcompare JsNumber.n50
                (SFmul 53 1024 (JsNumber.Math_max score) JsNumber.n100))
      as [[ | | ]|]; try reflexivity.
    elim H. reflexivity.
  - intros H. apply JsNumberFacts.eqb_not_gt in H.
    unfold JsNumber.gt in H. rewrite H. reflexivity.
  - intros score' E. rewrite classify_cases.
    unfold isCancer, confidenceScore, JsNumber.gt, JsNumber.mul.
    rewrite E. reflexivity.
Qed.

Lemma classification_threshold_witness :
  (In (JsNumber.Math_max [JsNumber.n0_3; JsNumber.n0_8; JsNumber.n0_25])
     [JsNumber.n0_3; JsNumber.n0_8; JsNumber.n0_25] /\
   Forall (fun x => leq x (JsNumber.Math_max [JsNumber.n0_3; JsNumber.n0_8; JsNumber.n0_25]))
     [JsNumber.n0_3; JsNumber.n0_8; JsNumber.n0_25]) /\
  JsNumber.Math_max [JsNumber.n0_3; S754_nan; JsNumber.n0_8] = S754_nan /\
  classify [JsNumber.n0_3; JsNumber.n0_8; JsNumber.n0_25] =
    mkClassification "Cancer" "Segera periksa ke dokter!" /\
  classify [JsNumber.n0_3; JsNumber.n0_25] =
    mkClassification "Non-cancer" "Penyakit kanker tidak terdeteksi." /\
  classify [JsNumber.n0_25; JsNumber.n0_5] =
    mkClassification "Non-cancer" "Penyakit kanker tidak terdeteksi." /\
  classify [JsNumber.n0_8; JsNumber.n0_3] = classify [JsNumber.n0_3; JsNumber.n0_8].
Proof.
  split; [|split; [|split; [|split; [|split]]]].
  - apply (proj1 (proj2 (proj2
             (classification_threshold [JsNumber.n0_3; JsNumber.n0_8; JsNumber.n0_25])))).
    + repeat constructor.
    + discriminate.
  - apply (proj1 (proj2 (proj2 (proj2
             (classification_threshold [JsNumber.n0_3; S754_nan; JsNumber.n0_8]))))).
    right. left. reflexivity.
  - apply (proj1 (proj2 (proj2 (proj2 (proj2
             (classification_threshold [JsNumber.n0_3; JsNumber.n0_8; JsNumber.n0_25])))))).
    reflexivity.
  - apply (proj1 (proj2 (proj2 (proj2 (proj2 (proj2
             (classification_threshold [JsNumber.n0_3; JsNumber.n0_25]))))))).
    vm_compute. discriminate.
  - apply (proj1 (proj2 (proj2 (proj2 (proj2 (proj2 (proj2
             (classification_threshold [JsNumber.n0_25; JsNumber.n0_5])))))))).
    reflexivity.
  - apply (proj2 (proj2 (proj2 (proj2 (proj2 (proj2 (proj2
             (classification_threshold [JsNumber.n0_3; JsNumber.n0_8])))))))).
    reflexivity.
Defined.

(** Degenerate score vectors: no score at all, or a NaN among the scores,
    give "Non-cancer". *)
Lemma classify_empty : classify [] = non_cancer.
Proof. reflexivity. Qed.

Lemma classify_nan (score : list JsNumber.number) :
  Exists (fun x => JsNumber.is_nan x = true) score -> classify score = non_cancer.
Proof.
  intros H. rewrite classify_cases. unfold isCancer, confidenceScore.
  rewrite (JsNumberFacts.Math_max_nan H). reflexivity.
Qed.

(** * The handler *)

Section ServerFacts.

Context {tf : TensorFlow}.
Local Open Scope list_scope.

Lemma predictClassification_ok (m : option GraphModel) (image : Buffer)
    (tensor prediction : Tensor) (score : list JsNumber.number) :
  preprocess image = Ok tensor ->
  model_predict m tensor = Ok prediction ->
  data prediction = Ok score ->
  predictClassification m image = Ok (classify score).
Proof.
  intros H1 H2 H3. unfold predictClassification.
  rewrite H1. simpl. rewrite H2. simpl. rewrite H3. reflexivity.
Qed.

Lemma predictClassification_throws (m : option GraphModel) (image : Buffer)
    (message : string) :
  decode_or_inference_throws m image message ->
  predictClassification m image = Throw ("Terjadi kesalahan input: " ++ message)%string.
Proof.
  unfold predictClassification.
  intros [H|[tensor [H1 [H2|[prediction [H2 H3]]]]]].
  - rewrite H. reflexivity.
  - rewrite H1. simpl. rewrite H2. reflexivity.
  - rewrite H1. simpl. rewrite H2. simpl. rewrite H3. reflexivity.
Qed.

Lemma predictClassification_no_model (image : Buffer) :
  exists message, predictClassification None image = Throw message.
Proof.
  unfold predictClassification.
  destruct (preprocess image) as [tensor|m]; simpl; eauto.
Qed.

Lemma predictClassification_inv (m : option GraphModel) (image : Buffer)
    (c : Classification) :
  predictClassification m image = Ok c ->
  exists tensor prediction score,
    preprocess image = Ok tensor /\
    model_predict m tensor = Ok prediction /\
    data prediction = Ok score /\
    c = classify score.
Proof.
  unfold predictClassification.
  destruct (preprocess image) as [tensor|e] eqn:H1; simpl; [|discriminate].
  destruct (model_predict m tensor) as [prediction|e] eqn:H2; simpl; [|discriminate].
  destruct (data prediction) as [score|e] eqn:H3; simpl; [|discriminate].
  intros H. inversion H. exists tensor, prediction, score. auto.
Qed.

(** The three statements of lines 108-110, case by case. *)
Lemma savePrediction_eq (env : Ambient) (doc : Json) (w : World) :
  savePrediction env doc w =
  match read_error env with
  | Some m => mkOutcome (Abrupt m) w []
  | None =>
      match predictions_json w with
      | None =>
          mkOutcome
            (Abrupt "ENOENT: no such file or directory, open 'predictions.json'")
            w []
      | Some text =>
          match JSON_parse (or_empty_array text) with
          | Throw m => mkOutcome (Abrupt m) w []
          | Ok v =>
              match push v doc with
              | Throw m => mkOutcome (Abrupt m) w []
              | Ok v' => writeFileSync env (JSON_stringify v') w
              end
          end
      end
  end.
Proof.
  unfold savePrediction, bind, readFileSync, lift.
  destruct (read_error env); [reflexivity|].
  destruct (predictions_json w) as [text|]; [|reflexivity]. simpl.
  destruct (JSON_parse (or_empty_array text)) as [v|m]; [|reflexivity]. simpl.
  destruct (push v doc) as [v'|m]; [|reflexivity]. simpl.
  unfold writeFileSync. destruct (write_outcome env); reflexivity.
Qed.

Lemma savePrediction_normal (env : Ambient) (doc : Json) (w : World) (u : unit) :
  completion (savePrediction env doc w) = Normal u ->
  savePrediction env doc w =
  mkOutcome (Normal tt)
    (mkWorld (model w) (Some (JsonText (JArr (stored w ++ [doc])))))
    [FileWritten (JsonText (JArr (stored w ++ [doc])))].
Proof.
  rewrite savePrediction_eq. unfold stored, writeFileSync.
  destruct (read_error env); [discriminate|].
  destruct (predictions_json w) as [[|[ | | | |items|]|]|]; simpl;
    try discriminate;
    destruct (write_outcome env); simpl; try discriminate; reflexivity.
Qed.

Lemma savePrediction_abrupt (env : Ambient) (doc : Json) (w : World)
    (message : string) :
  completion (savePrediction env doc w) = Abrupt message ->
  effects (savePrediction env doc w) = [] /\
  (world (savePrediction env doc w) = w \/
   exists m partial text,
     write_outcome env = CutShort m partial /\
     completion (readFileSync env w) = Normal text /\
     world (savePrediction env doc w) =
     mkWorld (model w) (Some (if partial then BrokenText else EmptyText))).
Proof.
  rewrite savePrediction_eq. unfold writeFileSync, readFileSync.
  destruct (read_error env); [auto|].
  destruct (predictions_json w) as [text|]; [|auto].
  destruct (JSON_parse (or_empty_array text)) as [v|m]; [|auto].
  destruct (push v doc) as [v'|m]; [|auto].
  destruct (write_outcome env) as [|m|m partial]; simpl;
    [discriminate|auto|].
  intros _. split; [reflexivity|]. right. exists m, partial, text.
  repeat split.
Qed.

Lemma savePrediction_not_exited (env : Ambient) (doc : Json) (w : World) (c : Z) :
  completion (savePrediction env doc w) <> Exited c.
Proof.
  rewrite savePrediction_eq. unfold writeFileSync.
  destruct (read_error env); [discriminate|].
  destruct (predictions_json w) as [text|]; [|discriminate].
  destruct (JSON_parse (or_empty_array text)) as [v|m]; [|discriminate].
  destruct (push v doc) as [v'|m]; [|discriminate].
  destruct (write_outcome env); discriminate.
Qed.

(** The [try] block and its [catch], by the outcome of the inference and
    of the three log statements. *)
Lemma callback_file (env : Ambient) (file : FilePart) (w : World) :
  predict_callback env (UploadDone (Some file)) w =
  match predictClassification (model w) (buffer file) with
  | Throw m =>
      mkOutcome (Normal tt) w
        [ConsoleError [JStr "Prediction error:"; JStr m];
         Respond 400 (fail_body prediction_failed_message)]
  | Ok c =>
      let doc := predictionDoc env c in
      let s := savePrediction env doc w in
      match completion s with
      | Normal _ =>
          mkOutcome (Normal tt) (world s)
            (effects s ++ [ConsoleLog [JStr "Prediction saved locally:"; doc];
                           Respond 201 (success_body doc)])
      | Abrupt m =>
          mkOutcome (Normal tt) (world s)
            (effects s ++ [ConsoleError [JStr "Prediction error:"; JStr m];
                           Respond 400 (fail_body prediction_failed_message)])
      | Exited code => mkOutcome (Exited code) (world s) (effects s)
      end
  end.
Proof.
  unfold predict_callback, try_catch, bind, get_model, lift. simpl.
  destruct (predictClassification (model w) (buffer file)) as [c|m]; simpl;
    [|reflexivity].
  destruct (savePrediction env (predictionDoc env c) w) as [[u|m|code] w' es];
    simpl; reflexivity.
Qed.

Lemma callback_failed (env : Ambient) (err : UploadError) (w : World) :
  world (predict_callback env (UploadFailed err) w) = w /\
  created (effects (predict_callback env (UploadFailed err) w)) = [] /\
  completion (predict_callback env (UploadFailed err) w) = Normal tt.
Proof. destruct err; repeat split. Qed.

(** What the middleware makes of an upload. *)
Lemma upload_single (part : FilePart) :
  fieldname part = "image" ->
  includes allowedTypes (mimetype part) = true ->
  byteLength (buffer part) <= fileSize ->
  upload (Multipart [part]) = UploadDone (Some part).
Proof.
  intros Hf Ht Hs. simpl. rewrite Hf. simpl.
  unfold fileFilter. rewrite Ht.
  destruct (Z.ltb_spec fileSize (byteLength (buffer part))); [lia|reflexivity].
Qed.

Lemma upload_oversized (files : list FilePart) :
  Exists (fun p => fileSize < byteLength (buffer p)) files ->
  (exists err, upload (Multipart files) = UploadFailed err) /\
  (Forall (fun p => includes allowedTypes (mimetype p) = true) files ->
   exists code, upload (Multipart files) = UploadFailed (MulterError code)).
Proof.
  intros Hex. destruct files as [|p1 rest]; [inversion Hex|]. simpl.
  destruct (negb (fieldname p1 =? "image")%string); [split; eauto|].
  unfold fileFilter.
  destruct (includes allowedTypes (mimetype p1)) eqn:Ht.
  - destruct (Z.ltb_spec fileSize (byteLength (buffer p1))) as [Hlt|Hge];
      [split; eauto|].
    inversion Hex as [? ? Hp|? ? Hr]; subst; [lia|].
    destruct rest as [|p2 rest']; [inversion Hr|]. simpl. split; eauto.
  - split; [eauto|]. intros Hall. inversion Hall as [|? ? Hp1 _]; subst.
    unfold includes, allowedTypes in Ht. simpl in Ht, Hp1. congruence.
Qed.

Lemma upload_no_image_field (req : Request) :
  no_image_field req ->
  upload req = UploadDone None \/ exists err, upload req = UploadFailed err.
Proof.
  destruct req as [|files|err]; simpl; [auto| |eauto].
  intros H. destruct files as [|p1 rest]; [auto|]. right. simpl.
  inversion H as [|? ? Hp _]; subst.
  destruct (String.eqb_spec (fieldname p1) "image"); [contradiction|].
  simpl. eauto.
Qed.

Lemma created_app (es1 es2 : list Effect) :
  created (es1 ++ es2) = created es1 ++ created es2.
Proof. apply flat_map_app. Qed.

Lemma skipn_past {A : Type} (l1 l2 : list A) (k : nat) :
  skipn (List.length l1 + k) (l1 ++ l2) = skipn k l2.
Proof. induction l1 as [|x l1 IH]; simpl; [reflexivity|exact IH]. Qed.

(** One request: either nothing is created and the stored records stay or
    are lost, or exactly the record of the request's inference is created
    and stored last. *)
Lemma post_predict_step (env : Ambient) (req : Request) (w : World) :
  model (world (post_predict env req w)) = model w /\
  ((created (effects (post_predict env req w)) = [] /\
    (stored (world (post_predict env req w)) = stored w \/
     stored (world (post_predict env req w)) = [])) \/
   exists doc,
     inference (model w) env req = Some doc /\
     created (effects (post_predict env req w)) = [doc] /\
     stored (world (post_predict env req w)) = stored w ++ [doc]).
Proof.
  unfold post_predict, inference.
  destruct (upload req) as [err|[file|]].
  - destruct err; simpl; auto.
  - rewrite callback_file.
    destruct (predictClassification (model w) (buffer file)) as [c|m];
      [|simpl; auto].
    cbv zeta.
    destruct (completion (savePrediction env (predictionDoc env c) w))
      as [u|m|code] eqn:E.
    + rewrite (savePrediction_normal _ _ _ E). simpl.
      split; [reflexivity|]. right. eexists. repeat split.
    + destruct (savePrediction_abrupt _ _ _ E) as [He [Hw|Hw]].
      * simpl. rewrite He, Hw. simpl. auto.
      * destruct Hw as (m' & partial & text & _ & _ & Hw).
        simpl. rewrite He, Hw. simpl. split; [reflexivity|]. left.
        split; [reflexivity|]. right. destruct partial; reflexivity.
    + elim (savePrediction_not_exited _ _ _ E).
  - simpl. auto.
Qed.

Lemma serve_invariant (reqs : list (Ambient * Request)) :
  forall w : World,
    exists k,
      stored (fst (serve reqs w)) =
      skipn k (stored w ++ created (snd (serve reqs w))) /\
      Subseq (created (snd (serve reqs w))) (inferences (model w) reqs).
Proof.
  induction reqs as [|[env req] rest IH]; intros w.
  - exists O. simpl. rewrite app_nil_r. split; [reflexivity|constructor].
  - simpl serve.
    destruct (post_predict_step env req w) as [Hm Hstep].
    destruct (IH (world (post_predict env req w))) as [k [Hk Hsub]].
    destruct (serve rest (world (post_predict env req w))) as [w' es].
    simpl fst in *. simpl snd in *.
    rewrite created_app. rewrite Hm in Hsub.
    simpl inferences. fold (inferences (model w) rest).
    destruct Hstep as [[Hc [Hs|Hs]]|[doc [Hi [Hc Hs]]]].
    + exists k. rewrite Hc, <- Hs. split; [exact Hk|].
      destruct (inference (model w) env req); [apply Subseq_drop|]; exact Hsub.
    + exists (List.length (stored w) + k)%nat. rewrite Hc. simpl app.
      rewrite skipn_past. rewrite Hs in Hk. split; [exact Hk|].
      destruct (inference (model w) env req); [apply Subseq_drop|]; exact Hsub.
    + exists k. rewrite Hc, Hi. rewrite Hs, <- app_assoc in Hk.
      split; [exact Hk|]. simpl. apply Subseq_keep. exact Hsub.
Qed.

(** An accepted upload whose inference returns and whose log statements
    complete: the log is written first, then the [201] response is sent. *)
Lemma accepted_upload_predicted (env : Ambient) (part : FilePart) (w : World)
    (c : Classification) :
  fieldname part = "image" ->
  includes allowedTypes (mimetype part) = true ->
  byteLength (buffer part) <= fileSize ->
  predictClassification (model w) (buffer part) = Ok c ->
  completion (savePrediction env (predictionDoc env c) w) = Normal tt ->
  post_predict env (Multipart [part]) w =
  mkOutcome (Normal tt)
    (mkWorld (model w)
       (Some (JsonText (JArr (stored w ++ [predictionDoc env c])))))
    [FileWritten (JsonText (JArr (stored w ++ [predictionDoc env c])));
     ConsoleLog [JStr "Prediction saved locally:"; predictionDoc env c];
     Respond 201 (success_body (predictionDoc env c))].
Proof.
  intros Hf Ht Hs Hc Hsave. unfold post_predict.
  rewrite (upload_single part Hf Ht Hs), callback_file, Hc. cbv zeta.
  rewrite (savePrediction_normal _ _ _ Hsave). reflexivity.
Qed.

(** C1. A JPEG upload of at most 1,000,000 bytes in the field [image],
    whose decoding, inference and log write succeed, is answered with
    status 201 and the success envelope around the new record.  The record
    has the fields id, result, suggestion and createdAt, with the value of
    [uuidv4()], one of the two label and suggestion pairs, and the time
    stamp.  The log is written before the response is sent, and it then
    holds the former records followed by the new one: one record more. *)
Theorem jpeg_upload_predicted (env : Ambient) (part : FilePart) (w : World)
    (c : Classification) :
  fieldname part = "image" ->
  mimetype part = "image/jpeg" ->
  byteLength (buffer part) <= 1000000 ->
  predictClassification (model w) (buffer part) = Ok c ->
  completion (savePrediction env (predictionDoc env c) w) = Normal tt ->
  let o := post_predict env (Multipart [part]) w in
  let doc := JObj [("id", JStr (uuid env));
                   ("result", JStr (label c));
                   ("suggestion", JStr (suggestion c));
                   ("createdAt", JStr (timestamp env))] in
  (c = mkClassification "Cancer" "Segera periksa ke dokter!" \/
   c = mkClassification "Non-cancer" "Penyakit kanker tidak terdeteksi.") /\
  effects o =
    [FileWritten (JsonText (JArr (stored w ++ [doc])));
     ConsoleLog [JStr "Prediction saved locally:"; doc];
     Respond 201 (JObj [("status", JStr "success");
                        ("message", JStr "Model is predicted successfully");
                        ("data", doc)])] /\
  responses (effects o) =
    [(201, JObj [("status", JStr "success");
                 ("message", JStr "Model is predicted successfully");
                 ("data", doc)])] /\
  predictions_json (world o) = Some (JsonText (JArr (stored w ++ [doc]))) /\
  stored (world o) = stored w ++ [doc] /\
  List.length (stored (world o)) = S (List.length (stored w)).
Proof.
  intros Hf Ht Hs Hc Hsave o doc. subst o doc.
  assert (Hall : includes allowedTypes (mimetype part) = true)
    by (rewrite Ht; reflexivity).
  rewrite (accepted_upload_predicted env part w Hf Hall Hs Hc Hsave).
  split.
  { destruct (predictClassification_inv _ _ Hc)
      as (tensor & prediction & score & _ & _ & _ & Hcs).
    subst c. apply classify_two. }
  simpl. repeat split.
  unfold stored at 1. cbn [predictions_json].
  rewrite length_app. simpl. lia.
Qed.

(** C4.  The start-up sequence as the code runs it: the port is bound
    first and [loadModel] runs in the callback of [listen].  When loading
    fails the process exits with code 1 after the port was bound; when it
    succeeds the model is assigned after the port was bound; an accepted
    upload handled while [model] is still undefined is answered 400. *)
Theorem start_binds_before_loading (env_PORT : option string) (w : World) :
  (forall message,
     start env_PORT (Throw message) w =
     mkOutcome (Exited 1) w
       [Listening (PORT env_PORT);
        ConsoleLog [JStr "Loading model..."];
        ConsoleError [JStr "Error loading model:"; JStr message]]) /\
  (forall m,
     start env_PORT (Ok m) w =
     mkOutcome (Normal tt) (mkWorld (Some m) (predictions_json w))
       [Listening (PORT env_PORT);
        ConsoleLog [JStr "Loading model..."];
        ConsoleLog [JStr "Model loaded successfully"];
        ConsoleLog [JStr ("Server is running on port " ++ PORT env_PORT)%string]]) /\
  (forall env file log,
     responses (effects (predict_callback env (UploadDone (Some file))
                           (mkWorld None log))) =
     [(400, fail_body prediction_failed_message)]).
Proof.
  repeat split.
  intros env file log. rewrite callback_file. simpl model.
  destruct (predictClassification_no_model (buffer file)) as [m Hm].
  rewrite Hm. reflexivity.
Qed.

(** C5.  The log statements on a missing and on an empty file.  With no
    file [predictions.json] the read throws, nothing is written, and every
    accepted upload is answered 400; with an empty file the new record
    becomes the whole log. *)
Theorem missing_log_file_fails (env : Ambient) (doc : Json)
    (m : option GraphModel) :
  (exists message,
     savePrediction env doc (mkWorld m None) =
     mkOutcome (Abrupt message) (mkWorld m None) []) /\
  (forall file,
     responses (effects (predict_callback env (UploadDone (Some file))
                           (mkWorld m None))) =
     [(400, fail_body prediction_failed_message)] /\
     world (predict_callback env (UploadDone (Some file)) (mkWorld m None)) =
     mkWorld m None) /\
  savePrediction (mkAmbient (uuid env) (timestamp env) None Written) doc
    (mkWorld m (Some EmptyText)) =
  mkOutcome (Normal tt) (mkWorld m (Some (JsonText (JArr [doc]))))
    [FileWritten (JsonText (JArr [doc]))].
Proof.
  assert (Hmissing : forall d, exists message,
             savePrediction env d (mkWorld m None) =
             mkOutcome (Abrupt message) (mkWorld m None) []).
  { intros d. rewrite savePrediction_eq. simpl.
    destruct (read_error env); eauto. }
  split; [apply Hmissing|]. split; [|reflexivity].
  intros file. rewrite callback_file. simpl model.
  destruct (predictClassification m (buffer file)) as [c|e]; [|split; reflexivity].
  cbv zeta. destruct (Hmissing (predictionDoc env c)) as [message Hs].
  rewrite Hs. split; reflexivity.
Qed.

(** C6.  A request that fails validation (the upload is refused or carries
    no file), decoding or inference leaves the state, and so the log, as
    it was and creates no record.  Over every sequence of requests, the
    stored records are a final part of the initial records followed by the
    records of the [201] responses, and those are, in order, records of
    distinct requests whose inference succeeded. *)
Theorem log_records_match_inferences :
  (forall env req (w : World),
     ((exists err, upload req = UploadFailed err) \/
      upload req = UploadDone None \/
      (exists file message,
         upload req = UploadDone (Some file) /\
         decode_or_inference_throws (model w) (buffer file) message)) ->
     world (post_predict env req w) = w /\
     created (effects (post_predict env req w)) = []) /\
  (forall reqs (w : World),
     exists k,
       stored (fst (serve reqs w)) =
       skipn k (stored w ++ created (snd (serve reqs w))) /\
       Subseq (created (snd (serve reqs w))) (inferences (model w) reqs)).
Proof.
  split; [|intros reqs w; apply serve_invariant].
  intros env req w [[err H]|[H|[file [message [H Hthrow]]]]];
    unfold post_predict; rewrite H.
  - destruct (callback_failed env err w) as [H1 [H2 _]]. auto.
  - split; reflexivity.
  - rewrite callback_file, (predictClassification_throws Hthrow).
    split; reflexivity.
Qed.

(** C7, as the code has it.  A request with a file part of more than
    1,000,000 bytes never changes the log; when every file part declares
    an allowed type, it is answered 413 with the fixed message. *)
Theorem oversized_upload_rejected (env : Ambient) (req : Request) (w : World) :
  oversized req ->
  (declared_allowed req ->
   responses (effects (post_predict env req w)) =
   [(413, JObj [("status", JStr "fail");
                ("message",
                 JStr "Payload content length greater than maximum allowed: 1000000")])]) /\
  world (post_predict env req w) = w /\
  created (effects (post_predict env req w)) = [].
Proof.
  destruct req as [|files|err]; simpl; [contradiction| |contradiction].
  intros Hover.
  destruct (upload_oversized Hover) as [[err Herr] Hallowed].
  unfold post_predict. split.
  - intros Hall. destruct (Hallowed Hall) as [code Hcode].
    rewrite Hcode. reflexivity.
  - rewrite Herr. destruct (callback_failed env err w) as [H1 [H2 _]]. auto.
Qed.

(** C8, as the code has it.  When the upload middleware reports no error
    and sets no [req.file], the handler logs, answers 400 with status
    "fail" and message "No file uploaded", and leaves the state as it was.
    A request without a file part in the field [image] never has a file
    handed to the handler: the state is left as it was, no record is
    created and no 201 is sent. *)
Theorem missing_file_rejected (env : Ambient) (req : Request) (w : World) :
  (upload req = UploadDone None ->
   effects (post_predict env req w) =
     [ConsoleError [JStr "No file uploaded"];
      Respond 400 (JObj [("status", JStr "fail");
                         ("message", JStr "No file uploaded")])] /\
   world (post_predict env req w) = w) /\
  (no_image_field req ->
   (forall file, upload req <> UploadDone (Some file)) /\
   world (post_predict env req w) = w /\
   created (effects (post_predict env req w)) = [] /\
   Forall (fun r => fst r <> 201) (responses (effects (post_predict env req w)))).
Proof.
  split.
  - intros H. unfold post_predict. rewrite H. split; reflexivity.
  - intros H. unfold post_predict.
    destruct (upload_no_image_field req H) as [Hu|[err Hu]]; rewrite Hu.
    + repeat split; try discriminate. repeat constructor. discriminate.
    + destruct (callback_failed env err w) as [H1 [H2 _]].
      repeat split; try assumption; try discriminate.
      destruct err; repeat constructor; discriminate.
Qed.

(** C9.  When decoding or inference throws on an accepted upload, the
    error text goes to the console only; the response is 400 with status
    "fail" and the fixed message, whatever was thrown. *)
Theorem prediction_failure_is_generic (env : Ambient) (req : Request)
    (w : World) (file : FilePart) (message : string) :
  upload req = UploadDone (Some file) ->
  decode_or_inference_throws (model w) (buffer file) message ->
  effects (post_predict env req w) =
    [ConsoleError [JStr "Prediction error:";
                   JStr ("Terjadi kesalahan input: " ++ message)%string];
     Respond 400 (JObj [("status", JStr "fail");
                        ("message",
                         JStr "Terjadi kesalahan dalam melakukan prediksi")])] /\
  responses (effects (post_predict env req w)) =
    [(400, JObj [("status", JStr "fail");
                 ("message",
                  JStr "Terjadi kesalahan dalam melakukan prediksi")])].
Proof.
  intros Hu Hthrow. unfold post_predict.
  rewrite Hu, callback_file, (predictClassification_throws Hthrow).
  split; reflexivity.
Qed.

(** C10, as the code has it.  When inference succeeds and the log
    statements throw, the response is 400 with the fixed message and no
    201 is sent.  The state is as before the request when the read throws,
    when the parse or the push throws, and when the write is refused before
    it touches the file.  When the write fails after it has truncated the
    file, the file is left empty or with an incomplete text. *)
Theorem persistence_failure_fails (env : Ambient) (req : Request) (w : World)
    (file : FilePart) (c : Classification) (message : string) :
  upload req = UploadDone (Some file) ->
  predictClassification (model w) (buffer file) = Ok c ->
  completion (savePrediction env (predictionDoc env c) w) = Abrupt message ->
  responses (effects (post_predict env req w)) =
    [(400, JObj [("status", JStr "fail");
                 ("message",
                  JStr "Terjadi kesalahan dalam melakukan prediksi")])] /\
  created (effects (post_predict env req w)) = [] /\
  ((forall text, completion (readFileSync env w) <> Normal text) ->
   world (post_predict env req w) = w) /\
  (forall text,
     completion (readFileSync env w) = Normal text ->
     ((forall v, JSON_parse (or_empty_array text) <> Ok v) ->
      world (post_predict env req w) = w) /\
     (forall v,
        JSON_parse (or_empty_array text) = Ok v ->
        ((forall v', push v (predictionDoc env c) <> Ok v') ->
         world (post_predict env req w) = w) /\
        (forall v',
           push v (predictionDoc env c) = Ok v' ->
           (forall m, write_outcome env = Refused m ->
                      world (post_predict env req w) = w) /\
           (forall m partial,
              write_outcome env = CutShort m partial ->
              message = m /\
              world (post_predict env req w) =
              mkWorld (model w)
                (Some (if partial then BrokenText else EmptyText)))))).
Proof.
  intros Hu Hc Hsave. unfold post_predict.
  rewrite Hu, callback_file, Hc. cbv zeta. rewrite Hsave.
  destruct (savePrediction_abrupt _ _ _ Hsave) as [He _].
  cbn [effects world]. rewrite He.
  split; [reflexivity|]. split; [reflexivity|].
  revert Hsave. rewrite savePrediction_eq. unfold readFileSync, writeFileSync.
  destruct (read_error env) as [e|].
  { cbn. intros _. split; [reflexivity|]. intros text H. discriminate H. }
  destruct (predictions_json w) as [t|].
  2:{ cbn. intros _. split; [reflexivity|]. intros text H. discriminate H. }
  cbn [completion]. intros Hsave. split.
  { intros H. elim (H t). reflexivity. }
  intros text Ht. inversion Ht; subst text. clear Ht.
  destruct (JSON_parse (or_empty_array t)) as [v0|e].
  2:{ split; [reflexivity|]. intros v H. discriminate H. }
  split; [intros H; elim (H v0); reflexivity|].
  intros v Hv. inversion Hv; subst v. clear Hv.
  destruct (push v0 (predictionDoc env c)) as [v1|e].
  2:{ split; [reflexivity|]. intros v' H. discriminate H. }
  split; [intros H; elim (H v1); reflexivity|].
  intros v' Hv'. clear Hv'.
  destruct (write_outcome env) as [|m0|m0 p0]; cbn in Hsave |- *.
  - discriminate Hsave.
  - split; [reflexivity|]. intros m partial H. discriminate H.
  - split; [intros m H; discriminate H|].
    intros m partial H. inversion H; subst. inversion Hsave. split; reflexivity.
Qed.

End ServerFacts.

(** * Concrete runs *)

Lemma big_byteLength (n : Z) : 0 <= n -> byteLength (Stub.big n) = n.
Proof.
  intros Hn. unfold byteLength, Stub.big. rewrite repeat_length. lia.
Qed.

Lemma jpeg_upload_predicted_witness :
  responses (effects (post_predict Stub.env (Multipart [Stub.jpeg])
                        (Stub.world_of (Some Stub.cancer_model)
                           (Some (JsonText (JArr [Stub.old_doc])))))) =
  [(201, JObj [("status", JStr "success");
               ("message", JStr "Model is predicted successfully");
               ("data",
                JObj [("id", JStr "0b8c2f6e-3c1d-4f8a-9a57-2d1f0c9e7b11");
                      ("result", JStr "Cancer");
                      ("suggestion", JStr "Segera periksa ke dokter!");
                      ("createdAt", JStr "2024-05-01T10:00:00.000Z")])])] /\
  stored (world (post_predict Stub.env (Multipart [Stub.jpeg])
                   (Stub.world_of (Some Stub.cancer_model)
                      (Some (JsonText (JArr [Stub.old_doc])))))) =
  [Stub.old_doc;
   JObj [("id", JStr "0b8c2f6e-3c1d-4f8a-9a57-2d1f0c9e7b11");
         ("result", JStr "Cancer");
         ("suggestion", JStr "Segera periksa ke dokter!");
         ("createdAt", JStr "2024-05-01T10:00:00.000Z")]].
Proof.
  destruct (@jpeg_upload_predicted Stub.binding Stub.env Stub.jpeg
              (Stub.world_of (Some Stub.cancer_model)
                 (Some (JsonText (JArr [Stub.old_doc]))))
              cancer)
    as [_ [_ [Hr [_ [Hs _]]]]];
    try reflexivity.
  - vm_compute. discriminate.
  - split; [exact Hr|exact Hs].
Defined.

Lemma log_records_match_inferences_witness :
  world (post_predict Stub.env (Multipart [Stub.gif])
           (Stub.world_of (Some Stub.cancer_model) (Some EmptyText))) =
  Stub.world_of (Some Stub.cancer_model) (Some EmptyText) /\
  world (post_predict Stub.env (Multipart [Stub.empty_jpeg])
           (Stub.world_of (Some Stub.cancer_model) (Some EmptyText))) =
  Stub.world_of (Some Stub.cancer_model) (Some EmptyText).
Proof.
  split.
  - apply (proj1 (@log_records_match_inferences Stub.binding)).
    left. eexists. reflexivity.
  - apply (proj1 (@log_records_match_inferences Stub.binding)).
    right. right. exists Stub.empty_jpeg. eexists. split; [reflexivity|].
    left. reflexivity.
Defined.

(** C7 as stated fails: an upload of 1,000,001 bytes declared [image/gif] is
    refused by the file filter and answered 400. *)
Lemma oversized_gif_answered_400 :
  oversized (Multipart [Stub.big_gif]) /\
  responses (effects (post_predict Stub.env (Multipart [Stub.big_gif])
                        (Stub.world_of (Some Stub.cancer_model) (Some EmptyText)))) =
  [(400, fail_body "Invalid file type. Only JPEG and PNG are allowed.")] /\
  responses (effects (post_predict Stub.env (Multipart [Stub.big_gif])
                        (Stub.world_of (Some Stub.cancer_model) (Some EmptyText)))) <>
  [(413, fail_body too_large_message)].
Proof.
  split; [|split].
  - constructor. change (fileSize < byteLength (Stub.big 1000001)).
    rewrite big_byteLength; unfold fileSize; lia.
  - reflexivity.
  - discriminate.
Qed.

Lemma oversized_upload_rejected_witness :
  responses (effects (post_predict Stub.env (Multipart [Stub.big_jpeg])
                        (Stub.world_of (Some Stub.cancer_model) (Some EmptyText)))) =
  [(413, fail_body too_large_message)] /\
  world (post_predict Stub.env (Multipart [Stub.big_jpeg])
           (Stub.world_of (Some Stub.cancer_model) (Some EmptyText))) =
  Stub.world_of (Some Stub.cancer_model) (Some EmptyText).
Proof.
  destruct (@oversized_upload_rejected Stub.binding Stub.env
              (Multipart [Stub.big_jpeg])
              (Stub.world_of (Some Stub.cancer_model) (Some EmptyText)))
    as [Hr [Hw _]].
  - constructor. change (fileSize < byteLength (Stub.big 1000001)).
    rewrite big_byteLength; unfold fileSize; lia.
  - split; [|exact Hw]. apply Hr. constructor; [reflexivity|constructor].
Defined.

(** C8 as stated fails: a file sent in the field [photo] is refused by the
    middleware with a [MulterError], and the handler answers 413 with the
    size message. *)
Lemma unexpected_field_answered_413 :
  no_image_field (Multipart [Stub.photo]) /\
  responses (effects (post_predict Stub.env (Multipart [Stub.photo])
                        (Stub.world_of (Some Stub.cancer_model) (Some EmptyText)))) =
  [(413, fail_body too_large_message)] /\
  responses (effects (post_predict Stub.env (Multipart [Stub.photo])
                        (Stub.world_of (Some Stub.cancer_model) (Some EmptyText)))) <>
  [(400, fail_body "No file uploaded")].
Proof.
  split; [|split].
  - constructor; [discriminate|constructor].
  - reflexivity.
  - discriminate.
Qed.

Lemma missing_file_rejected_witness :
  effects (post_predict Stub.env (Multipart [])
             (Stub.world_of (Some Stub.cancer_model) (Some EmptyText))) =
  [ConsoleError [JStr "No file uploaded"];
   Respond 400 (JObj [("status", JStr "fail"); ("message", JStr "No file uploaded")])] /\
  effects (post_predict Stub.env NotMultipart
             (Stub.world_of (Some Stub.cancer_model) (Some EmptyText))) =
  [ConsoleError [JStr "No file uploaded"];
   Respond 400 (JObj [("status", JStr "fail"); ("message", JStr "No file uploaded")])] /\
  world (post_predict Stub.env (Multipart [Stub.photo])
           (Stub.world_of (Some Stub.cancer_model) (Some EmptyText))) =
  Stub.world_of (Some Stub.cancer_model) (Some EmptyText).
Proof.
  split; [|split].
  - apply (proj1 (@missing_file_rejected Stub.binding Stub.env (Multipart [])
                    (Stub.world_of (Some Stub.cancer_model) (Some EmptyText)))).
    reflexivity.
  - apply (proj1 (@missing_file_rejected Stub.binding Stub.env NotMultipart
                    (Stub.world_of (Some Stub.cancer_model) (Some EmptyText)))).
    reflexivity.
  - apply (proj2 (@missing_file_rejected Stub.binding Stub.env
                    (Multipart [Stub.photo])
                    (Stub.world_of (Some Stub.cancer_model) (Some EmptyText)))).
    constructor; [discriminate|constructor].
Defined.

Lemma prediction_failure_is_generic_witness :
  responses (effects (post_predict Stub.env (Multipart [Stub.empty_jpeg])
                        (Stub.world_of (Some Stub.cancer_model) (Some EmptyText)))) =
  [(400, fail_body prediction_failed_message)].
Proof.
  apply (@prediction_failure_is_generic Stub.binding Stub.env
           (Multipart [Stub.empty_jpeg])
           (Stub.world_of (Some Stub.cancer_model) (Some EmptyText))
           Stub.empty_jpeg "Expected image, got empty file").
  - reflexivity.
  - left. reflexivity.
Defined.

(** C10 as stated fails: the disk fills up during the write, after the file
    was truncated; the request is answered 400 and the one stored record is
    gone. *)
Lemma cut_short_write_changes_log :
  @predictClassification Stub.binding (Some Stub.cancer_model) (buffer Stub.jpeg) =
  Ok cancer /\
  completion (savePrediction Stub.env_disk_full
                (predictionDoc Stub.env_disk_full cancer)
                (Stub.world_of (Some Stub.cancer_model)
                   (Some (JsonText (JArr [Stub.old_doc]))))) =
  Abrupt "ENOSPC: no space left on device, write" /\
  responses (effects (post_predict Stub.env_disk_full (Multipart [Stub.jpeg])
                        (Stub.world_of (Some Stub.cancer_model)
                           (Some (JsonText (JArr [Stub.old_doc])))))) =
  [(400, fail_body prediction_failed_message)] /\
  predictions_json
    (world (post_predict Stub.env_disk_full (Multipart [Stub.jpeg])
              (Stub.world_of (Some Stub.cancer_model)
                 (Some (JsonText (JArr [Stub.old_doc])))))) =
  Some EmptyText /\
  predictions_json
    (world (post_predict Stub.env_disk_full (Multipart [Stub.jpeg])
              (Stub.world_of (Some Stub.cancer_model)
                 (Some (JsonText (JArr [Stub.old_doc])))))) <>
  predictions_json
    (Stub.world_of (Some Stub.cancer_model) (Some (JsonText (JArr [Stub.old_doc])))).
Proof.
  repeat split. discriminate.
Qed.

Lemma persistence_failure_fails_witness :
  (responses (effects (post_predict Stub.env (Multipart [Stub.jpeg])
                         (Stub.world_of (Some Stub.cancer_model)
                            (Some (JsonText (JObj [])))))) =
   [(400, fail_body prediction_failed_message)] /\
   world (post_predict Stub.env (Multipart [Stub.jpeg])
            (Stub.world_of (Some Stub.cancer_model) (Some (JsonText (JObj []))))) =
   Stub.world_of (Some Stub.cancer_model) (Some (JsonText (JObj [])))) /\
  (responses (effects (post_predict Stub.env_read_only (Multipart [Stub.jpeg])
                         (Stub.world_of (Some Stub.cancer_model)
                            (Some (JsonText (JArr [Stub.old_doc])))))) =
   [(400, fail_body prediction_failed_message)] /\
   world (post_predict Stub.env_read_only (Multipart [Stub.jpeg])
            (Stub.world_of (Some Stub.cancer_model)
               (Some (JsonText (JArr [Stub.old_doc]))))) =
   Stub.world_of (Some Stub.cancer_model) (Some (JsonText (JArr [Stub.old_doc])))) /\
  (responses (effects (post_predict Stub.env_disk_full (Multipart [Stub.jpeg])
                         (Stub.world_of (Some Stub.cancer_model)
                            (Some (JsonText (JArr [Stub.old_doc])))))) =
   [(400, fail_body prediction_failed_message)] /\
   world (post_predict Stub.env_disk_full (Multipart [Stub.jpeg])
            (Stub.world_of (Some Stub.cancer_model)
               (Some (JsonText (JArr [Stub.old_doc]))))) =
   Stub.world_of (Some Stub.cancer_model) (Some EmptyText)).
Proof.
  split; [|split].
  - destruct (@persistence_failure_fails Stub.binding Stub.env
                (Multipart [Stub.jpeg])
                (Stub.world_of (Some Stub.cancer_model) (Some (JsonText (JObj []))))
                Stub.jpeg cancer "predictions.push is not a function")
      as (Hr & _ & _ & Hcases); try reflexivity.
    split; [exact Hr|].
    destruct (Hcases (JsonText (JObj [])) eq_refl) as [_ Hparsed].
    destruct (Hparsed (JObj []) eq_refl) as [Hpush _].
    apply Hpush. discriminate.
  - destruct (@persistence_failure_fails Stub.binding Stub.env_read_only
                (Multipart [Stub.jpeg])
                (Stub.world_of (Some Stub.cancer_model)
                   (Some (JsonText (JArr [Stub.old_doc]))))
                Stub.jpeg cancer "EROFS: read-only file system, open 'predictions.json'")
      as (Hr & _ & _ & Hcases); try reflexivity.
    split; [exact Hr|].
    destruct (Hcases (JsonText (JArr [Stub.old_doc])) eq_refl) as [_ Hparsed].
    destruct (Hparsed (JArr [Stub.old_doc]) eq_refl) as [_ Hpushed].
    destruct (Hpushed _ eq_refl) as [Hrefused _].
    apply (Hrefused _ eq_refl).
  - destruct (@persistence_failure_fails Stub.binding Stub.env_disk_full
                (Multipart [Stub.jpeg])
                (Stub.world_of (Some Stub.cancer_model)
                   (Some (JsonText (JArr [Stub.old_doc]))))
                Stub.jpeg cancer "ENOSPC: no space left on device, write")
      as (Hr & _ & _ & Hcases); try reflexivity.
    split; [exact Hr|].
    destruct (Hcases (JsonText (JArr [Stub.old_doc])) eq_refl) as [_ Hparsed].
    destruct (Hparsed (JArr [Stub.old_doc]) eq_refl) as [_ Hpushed].
    destruct (Hpushed _ eq_refl) as [_ Hcut].
    apply (Hcut _ false eq_refl).
Defined.

(** Requests on which the middleware gives up outside the file parts: a
    text field over its limit is a [MulterError] and is answered 413 with
    the size message; a parser failure is another error, and its message is
    what the response carries. *)
Example text_field_over_limit :
  responses (effects (post_predict Stub.env
                        (Aborted (MulterError "LIMIT_FIELD_VALUE"))
                        (Stub.world_of (Some Stub.cancer_model) (Some EmptyText)))) =
  [(413, fail_body too_large_message)].
Proof. reflexivity. Qed.

Example boundary_not_found :
  responses (effects (post_predict Stub.env
                        (Aborted (PlainError "Multipart: Boundary not found"))
                        (Stub.world_of (Some Stub.cancer_model) (Some EmptyText)))) =
  [(400, fail_body "Multipart: Boundary not found")].
Proof. reflexivity. Qed.

(** The scenarios of the specification on the small binding: a score of 0.8
    gives "Cancer" and 201; a PNG-typed upload that the decoder accepts, with
    a score of 0.3, gives "Non-cancer" and 201. *)
Example scenario_jpeg_cancer :
  responses (effects (post_predict Stub.env (Multipart [Stub.jpeg])
                        (Stub.world_of (Some Stub.cancer_model) (Some EmptyText)))) =
  [(201, success_body (predictionDoc Stub.env cancer))].
Proof. reflexivity. Qed.

Example scenario_png_when_decoded :
  responses (effects (post_predict Stub.env (Multipart [Stub.png])
                        (Stub.world_of (Some Stub.benign_model) (Some EmptyText)))) =
  [(201, success_body (predictionDoc Stub.env non_cancer))].
Proof. reflexivity. Qed.

(** * Further properties of the service *)

Lemma Math_max_singleton (x : JsNumber.number) :
  JsNumber.is_nan x = false -> JsNumber.Math_max [x] = x.
Proof.
  destruct x as [[|]|[|]| |s m e]; try discriminate; reflexivity.
Qed.

(** X5.  For a non-empty score vector without NaN, the confidence is
    computed from one score of the vector that is at least as large as every
    score, and the result is the one that this score alone would give. *)
Theorem confidence_from_largest_score (score : list JsNumber.number) :
  nan_free score -> score <> [] ->
  exists x,
    In x score /\
    Forall (fun y => leq y x) score /\
    confidenceScore score = JsNumber.mul x JsNumber.n100 /\
    classify score = classify [x].
Proof.
  intros Hv Hne.
  destruct (JsNumberFacts.Math_max_is_maximum Hv Hne) as [Hin Hb].
  exists (JsNumber.Math_max score). repeat split; try assumption.
  assert (Hx : JsNumber.is_nan (JsNumber.Math_max score) = false).
  { unfold nan_free in Hv. rewrite Forall_forall in Hv. apply Hv. exact Hin. }
  rewrite !classify_cases. unfold isCancer, confidenceScore.
  rewrite (Math_max_singleton _ Hx). reflexivity.
Qed.

Lemma confidence_from_largest_score_witness :
  exists x,
    In x [JsNumber.n0_3; JsNumber.n0_8; JsNumber.n0_25] /\
    Forall (fun y => leq y x) [JsNumber.n0_3; JsNumber.n0_8; JsNumber.n0_25] /\
    confidenceScore [JsNumber.n0_3; JsNumber.n0_8; JsNumber.n0_25] =
    JsNumber.mul x JsNumber.n100 /\
    classify [JsNumber.n0_3; JsNumber.n0_8; JsNumber.n0_25] = classify [x].
Proof.
  apply confidence_from_largest_score.
  - repeat constructor.
  - discriminate.
Defined.

Lemma Subseq_In {A : Type} (l1 l2 : list A) (x : A) :
  Subseq l1 l2 -> In x l1 -> In x l2.
Proof.
  induction 1 as [|y l1 l2 _ IH|y l1 l2 _ IH]; simpl; intros Hin.
  - exact Hin.
  - right. apply IH. exact Hin.
  - destruct Hin as [E|Hin]; [left; exact E|right; apply IH; exact Hin].
Qed.

Lemma Subseq_NoDup {A : Type} (l1 l2 : list A) :
  Subseq l1 l2 -> NoDup l2 -> NoDup l1.
Proof.
  induction 1 as [|y l1 l2 Hs IH|y l1 l2 Hs IH]; intros Hnd.
  - constructor.
  - inversion Hnd; subst. apply IH. assumption.
  - inversion Hnd as [|? ? Hy Hrest]; subst. constructor.
    + intros Hin. apply Hy. eapply Subseq_In; eassumption.
    + apply IH. exact Hrest.
Qed.

Section ServiceProperties.

Context {tf : TensorFlow}.
Local Open Scope list_scope.

Lemma responses_app (es1 es2 : list Effect) :
  responses (es1 ++ es2) = responses es1 ++ responses es2.
Proof. apply flat_map_app. Qed.

Lemma predictionDoc_well_formed (env : Ambient) (m : option GraphModel)
    (image : Buffer) (c : Classification) :
  predictClassification m image = Ok c ->
  well_formed_record (predictionDoc env c).
Proof.
  intros H. destruct (predictClassification_inv _ _ H)
    as (tensor & prediction & score & _ & _ & _ & Hc).
  exists (uuid env), (timestamp env), c. split; [|reflexivity].
  subst c. apply classify_two.
Qed.

(** X1.  Whatever the middleware hands to the callback, whatever the
    state and the surroundings, the callback ends normally, leaves [model]
    as it is and sends exactly one response.  That response is 413 with the
    size message for every [MulterError]; 400 with the error's own message
    for every other error of the middleware; 400 "No file uploaded"; 400
    with the fixed prediction-failure message; or 201 with the success
    envelope. *)
Theorem callback_responds_once (env : Ambient) (result : UploadResult) (w : World) :
  completion (predict_callback env result w) = Normal tt /\
  model (world (predict_callback env result w)) = model w /\
  exists status body,
    responses (effects (predict_callback env result w)) = [(status, body)] /\
    (((exists code, result = UploadFailed (MulterError code)) /\
      status = 413 /\
      body = JObj [("status", JStr "fail");
                   ("message",
                    JStr "Payload content length greater than maximum allowed: 1000000")]) \/
     (exists message,
        result = UploadFailed (PlainError message) /\
        status = 400 /\
        body = JObj [("status", JStr "fail"); ("message", JStr message)]) \/
     (result = UploadDone None /\
      status = 400 /\
      body = JObj [("status", JStr "fail"); ("message", JStr "No file uploaded")]) \/
     ((exists file, result = UploadDone (Some file)) /\
      ((status = 400 /\
        body = JObj [("status", JStr "fail");
                     ("message",
                      JStr "Terjadi kesalahan dalam melakukan prediksi")]) \/
       (status = 201 /\
        exists doc,
          body = JObj [("status", JStr "success");
                       ("message", JStr "Model is predicted successfully");
                       ("data", doc)])))).
Proof.
  destruct result as [[code|message]|[file|]].
  - repeat split. do 2 eexists. split; [reflexivity|]. left. eauto.
  - repeat split. do 2 eexists. split; [reflexivity|]. right. left. eauto.
  - rewrite callback_file.
    destruct (predictClassification (model w) (buffer file)) as [c|e].
    + cbv zeta.
      destruct (completion (savePrediction env (predictionDoc env c) w))
        as [u|e|code] eqn:E.
      * rewrite (savePrediction_normal _ _ _ E). repeat split.
        do 2 eexists. split; [reflexivity|]. right. right. right.
        split; [eauto|]. right. split; [reflexivity|]. eexists. reflexivity.
      * destruct (savePrediction_abrupt _ _ _ E) as [He [Hw|Hw]].
        -- cbn [completion world effects]. rewrite He, Hw. repeat split.
           do 2 eexists. split; [reflexivity|]. right. right. right.
           split; [eauto|]. left. split; reflexivity.
        -- destruct Hw as (m' & partial & text & _ & _ & Hw).
           cbn [completion world effects]. rewrite He, Hw. repeat split.
           do 2 eexists. split; [reflexivity|]. right. right. right.
           split; [eauto|]. left. split; reflexivity.
      * elim (savePrediction_not_exited _ _ _ E).
    + repeat split. do 2 eexists. split; [reflexivity|]. right. right. right.
      split; [eauto|]. left. split; reflexivity.
  - repeat split. do 2 eexists. split; [reflexivity|]. right. right. left.
    repeat split.
Qed.

(** X2.  A 201 response is sent only for an accepted file whose inference
    returned and whose log statements completed: the surroundings served
    the read and the write, the log was written before the response, and the
    record in the response is the last record of the stored log. *)
Theorem created_record_is_stored_last (env : Ambient) (req : Request) (w : World)
    (body : Json) :
  In (201, body) (responses (effects (post_predict env req w))) ->
  exists file c,
    upload req = UploadDone (Some file) /\
    predictClassification (model w) (buffer file) = Ok c /\
    body = success_body (predictionDoc env c) /\
    dependable env /\
    effects (post_predict env req w) =
      [FileWritten (JsonText (JArr (stored w ++ [predictionDoc env c])));
       ConsoleLog [JStr "Prediction saved locally:"; predictionDoc env c];
       Respond 201 body] /\
    predictions_json (world (post_predict env req w)) =
      Some (JsonText (JArr (stored w ++ [predictionDoc env c]))).
Proof.
  unfold post_predict.
  destruct (upload req) as [[code|message]|[file|]] eqn:Hu;
    try (simpl; intros [H|[]]; discriminate).
  rewrite callback_file.
  destruct (predictClassification (model w) (buffer file)) as [c|e] eqn:Hc;
    [|simpl; intros [H|[]]; discriminate].
  cbv zeta.
  destruct (completion (savePrediction env (predictionDoc env c) w))
    as [u|e|code] eqn:E.
  - assert (Hd : dependable env).
    { revert E. rewrite savePrediction_eq. unfold dependable, writeFileSync.
      destruct (read_error env); [discriminate|].
      destruct (predictions_json w) as [text|]; [|discriminate].
      destruct (JSON_parse (or_empty_array text)); [|discriminate].
      destruct (push a (predictionDoc env c)); [|discriminate].
      destruct (write_outcome env); try discriminate. auto. }
    rewrite (savePrediction_normal _ _ _ E). simpl.
    intros [H|[]]. inversion H; subst body.
    exists file, c. repeat split; try reflexivity; try assumption; apply Hd.
  - destruct (savePrediction_abrupt _ _ _ E) as [He _]. simpl. rewrite He.
    simpl. intros [H|[]]; discriminate.
  - elim (savePrediction_not_exited _ _ _ E).
Qed.

(** X3.  A file part in the field [image] whose declared type is not
    allowed is refused before anything else happens: the response is 400
    with the file-type message and the state is as before. *)
Theorem disallowed_type_rejected (env : Ambient) (part : FilePart)
    (rest : list FilePart) (w : World) :
  fieldname part = "image" ->
  includes allowedTypes (mimetype part) = false ->
  effects (post_predict env (Multipart (part :: rest)) w) =
    [ConsoleError [JStr "Error:";
                   JStr "Invalid file type. Only JPEG and PNG are allowed."];
     Respond 400
       (JObj [("status", JStr "fail");
              ("message", JStr "Invalid file type. Only JPEG and PNG are allowed.")])] /\
  world (post_predict env (Multipart (part :: rest)) w) = w.
Proof.
  intros Hf Ht. unfold post_predict. simpl upload.
  rewrite Hf. simpl. unfold fileFilter. rewrite Ht. split; reflexivity.
Qed.

(** X4.  Degenerate model outputs do not throw: when the model answers
    with no score at all, or with a NaN among the scores, the result is
    "Non-cancer" with the not-detected suggestion. *)
Theorem degenerate_scores_are_non_cancer (m : option GraphModel) (image : Buffer)
    (tensor prediction : Tensor) (score : list JsNumber.number) :
  preprocess image = Ok tensor ->
  model_predict m tensor = Ok prediction ->
  data prediction = Ok score ->
  score = [] \/ Exists (fun x => JsNumber.is_nan x = true) score ->
  predictClassification m image = Ok non_cancer.
Proof.
  intros H1 H2 H3 Hdeg.
  rewrite (predictClassification_ok m image H1 H2 H3). f_equal.
  destruct Hdeg as [He|Hn]; [subst score; reflexivity|apply classify_nan; exact Hn].
Qed.

Lemma inferences_cons (m : option GraphModel) (r : Ambient * Request)
    (rest : list (Ambient * Request)) :
  inferences m (r :: rest) = inferences m [r] ++ inferences m rest.
Proof. unfold inferences. simpl. rewrite app_nil_r. reflexivity. Qed.

Lemma savePrediction_dependable (env : Ambient) (doc : Json) (w : World) :
  usable_log w -> dependable env ->
  completion (savePrediction env doc w) = Normal tt.
Proof.
  intros Hu [Hr Hw]. rewrite savePrediction_eq, Hr.
  destruct Hu as [He|[items He]]; rewrite He; simpl;
    unfold writeFileSync; rewrite Hw; reflexivity.
Qed.

(** One request served by a dependable file system on a usable log. *)
Lemma post_predict_dependable (env : Ambient) (req : Request) (w : World) :
  usable_log w -> dependable env ->
  usable_log (world (post_predict env req w)) /\
  model (world (post_predict env req w)) = model w /\
  stored (world (post_predict env req w)) =
    stored w ++ inferences (model w) [(env, req)] /\
  created (effects (post_predict env req w)) = inferences (model w) [(env, req)].
Proof.
  intros Hu [Hr Hw]. unfold inferences. simpl flat_map.
  unfold post_predict, inference.
  destruct (upload req) as [[code|message]|[file|]];
    try (simpl; rewrite app_nil_r; solve [auto]).
  rewrite callback_file.
  destruct (predictClassification (model w) (buffer file)) as [c|e];
    [|simpl; rewrite app_nil_r; auto].
  cbv zeta. rewrite savePrediction_eq, Hr. unfold stored, usable_log.
  destruct Hu as [He|[items He]]; rewrite He; simpl;
    unfold writeFileSync; rewrite Hw; simpl; repeat split; eauto.
Qed.

(** X7.  Round trip of the log: on a usable log and a dependable file
    system, a sequence of requests leaves the log usable and holding the
    former records followed, in order of arrival, by one record per request
    whose inference succeeded; these are the records of the 201 responses. *)
Theorem serve_appends_inferences (reqs : list (Ambient * Request)) :
  forall w : World,
    usable_log w ->
    Forall (fun r => dependable (fst r)) reqs ->
    usable_log (fst (serve reqs w)) /\
    stored (fst (serve reqs w)) = stored w ++ inferences (model w) reqs /\
    created (snd (serve reqs w)) = inferences (model w) reqs /\
    List.length (stored (fst (serve reqs w))) =
      (List.length (stored w) + List.length (inferences (model w) reqs))%nat.
Proof.
  assert (H : forall w : World,
             usable_log w ->
             Forall (fun r => dependable (fst r)) reqs ->
             usable_log (fst (serve reqs w)) /\
             stored (fst (serve reqs w)) = stored w ++ inferences (model w) reqs /\
             created (snd (serve reqs w)) = inferences (model w) reqs).
  { induction reqs as [|[env req] rest IH]; intros w Hu Hall.
    - simpl. rewrite app_nil_r. auto.
    - inversion Hall as [|? ? Hd Hrest]; subst. simpl in Hd.
      destruct (post_predict_dependable req Hu Hd) as (Hu' & Hm & Hs & Hc).
      destruct (IH (world (post_predict env req w)) Hu' Hrest) as (Hu'' & Hs' & Hc').
      simpl serve.
      destruct (serve rest (world (post_predict env req w))) as [w' es].
      simpl fst in *. simpl snd in *.
      rewrite Hm in Hs', Hc'.
      rewrite (inferences_cons (model w) (env, req) rest).
      rewrite created_app, Hc, Hc', Hs', Hs, app_assoc. auto. }
  intros w Hu Hall. destruct (H w Hu Hall) as (H1 & H2 & H3).
  repeat split; try assumption. rewrite H2. apply length_app.
Qed.

(** One request on an unusable log. *)
Lemma post_predict_unusable (env : Ambient) (req : Request) (w : World) :
  unusable_log w ->
  world (post_predict env req w) = w /\
  created (effects (post_predict env req w)) = [] /\
  Forall (fun r => fst r <> 201) (responses (effects (post_predict env req w))).
Proof.
  intros Hu. unfold post_predict.
  destruct (upload req) as [[code|message]|[file|]];
    try (repeat split; repeat constructor; discriminate).
  rewrite callback_file.
  destruct (predictClassification (model w) (buffer file)) as [c|e];
    [|repeat split; repeat constructor; discriminate].
  cbv zeta. rewrite savePrediction_eq. unfold unusable_log in Hu.
  destruct (read_error env);
    [repeat split; repeat constructor; discriminate|].
  destruct (predictions_json w) as [[|[ | | | |items|]|]|]; simpl;
    try contradiction;
    repeat split; repeat constructor; discriminate.
Qed.

(** X8.  An unusable log is never repaired: while [predictions.json] is
    missing, is not JSON or is not an array, every sequence of requests
    leaves the state as it is, stores nothing and gets no 201. *)
Theorem unusable_log_is_permanent (reqs : list (Ambient * Request)) :
  forall w : World,
    unusable_log w ->
    fst (serve reqs w) = w /\
    created (snd (serve reqs w)) = [] /\
    Forall (fun r => fst r <> 201) (responses (snd (serve reqs w))).
Proof.
  induction reqs as [|[env req] rest IH]; intros w Hu.
  - simpl. auto.
  - destruct (post_predict_unusable env req w Hu) as (Hw & Hc & Hr).
    simpl serve. destruct (IH (world (post_predict env req w))) as (Hw' & Hc' & Hr').
    { rewrite Hw. exact Hu. }
    destruct (serve rest (world (post_predict env req w))) as [w' es].
    simpl fst in *. simpl snd in *.
    rewrite created_app, responses_app, Hc, Hc', Hw', Hw.
    repeat split. apply Forall_app. auto.
Qed.

(** X9.  Well-formed records stay well formed: if every stored record has
    the four fields of a prediction with one of the two label and suggestion
    pairs, so has every stored record after any sequence of requests. *)
Theorem stored_records_stay_well_formed (reqs : list (Ambient * Request)) :
  forall w : World,
    Forall well_formed_record (stored w) ->
    Forall well_formed_record (stored (fst (serve reqs w))).
Proof.
  induction reqs as [|[env req] rest IH]; intros w Hwf.
  - exact Hwf.
  - simpl serve.
    assert (Hstep : Forall well_formed_record (stored (world (post_predict env req w)))).
    { destruct (post_predict_step env req w) as [_ [[_ [Hs|Hs]]|[doc [Hi [_ Hs]]]]];
        rewrite Hs; [exact Hwf|constructor|].
      apply Forall_app. split; [exact Hwf|]. constructor; [|constructor].
      unfold inference in Hi.
      destruct (upload req) as [err|[file|]]; try discriminate.
      destruct (predictClassification (model w) (buffer file)) as [c|e] eqn:Hc;
        [|discriminate].
      inversion Hi; subst doc. apply (predictionDoc_well_formed env _ _ Hc). }
    specialize (IH _ Hstep).
    destruct (serve rest (world (post_predict env req w))) as [w' es]. exact IH.
Qed.

Lemma In_inferences (m : option GraphModel) (reqs : list (Ambient * Request))
    (doc : Json) :
  In doc (inferences m reqs) ->
  exists r c, In r reqs /\ doc = predictionDoc (fst r) c.
Proof.
  unfold inferences. rewrite in_flat_map. intros [r [Hr Hd]].
  unfold inference in Hd.
  destruct (upload (snd r)) as [err|[file|]]; try contradiction.
  destruct (predictClassification m (buffer file)) as [c|e]; [|contradiction].
  destruct Hd as [Hd|[]]. exists r, c. auto.
Qed.

Lemma NoDup_inferences (m : option GraphModel) (reqs : list (Ambient * Request)) :
  NoDup (map (fun r => uuid (fst r)) reqs) -> NoDup (inferences m reqs).
Proof.
  induction reqs as [|[env req] rest IH]; intros Hnd.
  - constructor.
  - simpl in Hnd. inversion Hnd as [|? ? Hnew Hrest]; subst.
    rewrite (inferences_cons m (env, req) rest).
    unfold inferences at 1. simpl flat_map.
    destruct (inference m env req) as [doc|] eqn:Hi; simpl; [|apply IH; exact Hrest].
    constructor; [|apply IH; exact Hrest].
    intros Hin. apply Hnew.
    destruct (In_inferences _ _ _ Hin) as (r & c & Hr & Hd).
    unfold inference in Hi.
    destruct (upload req) as [err|[file|]]; try discriminate.
    destruct (predictClassification m (buffer file)) as [c'|e]; [|discriminate].
    inversion Hi as [Hdoc]. rewrite <- Hdoc in Hd.
    unfold predictionDoc in Hd. inversion Hd as [Hid].
    rewrite Hid. apply in_map with (f := fun r => uuid (fst r)). exact Hr.
Qed.

(** X10.  When [uuidv4()] gives a different value to every request of a
    sequence, the records of the 201 responses are pairwise different. *)
Theorem created_records_distinct (reqs : list (Ambient * Request)) (w : World) :
  NoDup (map (fun r => uuid (fst r)) reqs) ->
  NoDup (created (snd (serve reqs w))).
Proof.
  intros Hnd. destruct (serve_invariant reqs w) as [k [_ Hsub]].
  apply (Subseq_NoDup Hsub). apply NoDup_inferences. exact Hnd.
Qed.

(** X11.  The error-handling middleware answers 413 with the size message
    exactly for an error whose code is [LIMIT_FILE_SIZE]; every other error
    is answered 500 "Internal server error".  It leaves the state as it is,
    and the response never depends on the error's message. *)
Theorem error_middleware_statuses (code : option string) (message : string)
    (w : World) :
  (responses (effects (error_middleware code message w)) =
     [(413, fail_body too_large_message)] <->
   code = Some "LIMIT_FILE_SIZE") /\
  (code <> Some "LIMIT_FILE_SIZE" ->
   responses (effects (error_middleware code message w)) =
     [(500, fail_body "Internal server error")]) /\
  world (error_middleware code message w) = w /\
  (forall message',
     responses (effects (error_middleware code message' w)) =
     responses (effects (error_middleware code message w))).
Proof.
  unfold error_middleware.
  destruct code as [c|]; [destruct (String.eqb_spec c "LIMIT_FILE_SIZE")|];
    simpl; repeat split; try reflexivity; try congruence; discriminate.
Qed.

(** X12.  Start-up and handler together: after a start-up in which the
    model loads, an accepted upload is judged by the loaded model; with a
    usable log and a dependable file system it is answered 201 with the
    classification of the scores that model gives. *)
Theorem request_after_start_uses_loaded_model (env_PORT : option string)
    (m : GraphModel) (w : World) (env : Ambient) (part : FilePart)
    (tensor prediction : Tensor) (score : list JsNumber.number) :
  fieldname part = "image" ->
  includes allowedTypes (mimetype part) = true ->
  byteLength (buffer part) <= fileSize ->
  preprocess (buffer part) = Ok tensor ->
  predict m tensor = Ok prediction ->
  data prediction = Ok score ->
  usable_log w -> dependable env ->
  completion (start env_PORT (Ok m) w) = Normal tt /\
  responses (effects (post_predict env (Multipart [part])
                        (world (start env_PORT (Ok m) w)))) =
    [(201, success_body (predictionDoc env (classify score)))] /\
  stored (world (post_predict env (Multipart [part])
                   (world (start env_PORT (Ok m) w)))) =
    stored w ++ [predictionDoc env (classify score)].
Proof.
  intros Hf Ht Hs H1 H2 H3 Hu Hd.
  change (start env_PORT (Ok m) w)
    with (mkOutcome (Normal tt) (mkWorld (Some m) (predictions_json w))
            [Listening (PORT env_PORT);
             ConsoleLog [JStr "Loading model..."];
             ConsoleLog [JStr "Model loaded successfully"];
             ConsoleLog [JStr ("Server is running on port " ++ PORT env_PORT)%string]]).
  cbn [completion world]. split; [reflexivity|].
  set (w1 := mkWorld (Some m) (predictions_json w)).
  assert (Hu1 : usable_log w1) by exact Hu.
  assert (Hc : predictClassification (model w1) (buffer part) = Ok (classify score)).
  { exact (predictClassification_ok (Some m) (buffer part) H1 H2 H3). }
  assert (Hsave : completion (savePrediction env (predictionDoc env (classify score)) w1)
                  = Normal tt).
  { apply savePrediction_dependable; assumption. }
  rewrite (accepted_upload_predicted env part w1 Hf Ht Hs Hc Hsave).
  split; reflexivity.
Qed.

End ServiceProperties.

(** * Concrete runs for the further properties *)

Lemma created_record_is_stored_last_witness :
  exists file,
    upload (Multipart [Stub.jpeg]) = UploadDone (Some file) /\
    predictions_json
      (world (post_predict Stub.env (Multipart [Stub.jpeg])
                (Stub.world_of (Some Stub.cancer_model)
                   (Some (JsonText (JArr [Stub.old_doc])))))) =
    Some (JsonText (JArr [Stub.old_doc; predictionDoc Stub.env cancer])).
Proof.
  destruct (@created_record_is_stored_last Stub.binding Stub.env
              (Multipart [Stub.jpeg])
              (Stub.world_of (Some Stub.cancer_model)
                 (Some (JsonText (JArr [Stub.old_doc]))))
              (success_body (predictionDoc Stub.env cancer)))
    as (file & c & Hu & _ & Hb & _ & _ & Hp).
  - left. reflexivity.
  - exists file. split; [exact Hu|].
    rewrite Hp. destruct c as [l s]. inversion Hb. reflexivity.
Defined.

Lemma disallowed_type_rejected_witness :
  world (post_predict Stub.env (Multipart [Stub.gif])
           (Stub.world_of (Some Stub.cancer_model) (Some EmptyText))) =
  Stub.world_of (Some Stub.cancer_model) (Some EmptyText).
Proof.
  apply (@disallowed_type_rejected Stub.binding Stub.env Stub.gif []
           (Stub.world_of (Some Stub.cancer_model) (Some EmptyText)));
    reflexivity.
Defined.

Lemma degenerate_scores_are_non_cancer_witness :
  @predictClassification Stub.binding (Some [S754_nan; JsNumber.n0_8]) Stub.bytes3 =
  Ok non_cancer.
Proof.
  apply (@degenerate_scores_are_non_cancer Stub.binding
           (Some [S754_nan; JsNumber.n0_8]) Stub.bytes3
           (Stub.Pixels Stub.bytes3) (Stub.Scores [S754_nan; JsNumber.n0_8])
           [S754_nan; JsNumber.n0_8]);
    try reflexivity.
  right. constructor. reflexivity.
Defined.

Lemma serve_appends_inferences_witness :
  stored (fst (serve [(Stub.env, Multipart [Stub.jpeg]);
                      (Stub.env, Multipart [Stub.gif]);
                      (Stub.env, Multipart [Stub.png])]
                 (Stub.world_of (Some Stub.cancer_model) (Some EmptyText)))) =
  [predictionDoc Stub.env cancer; predictionDoc Stub.env cancer].
Proof.
  destruct (@serve_appends_inferences Stub.binding
              [(Stub.env, Multipart [Stub.jpeg]);
               (Stub.env, Multipart [Stub.gif]);
               (Stub.env, Multipart [Stub.png])]
              (Stub.world_of (Some Stub.cancer_model) (Some EmptyText)))
    as (_ & Hs & _).
  - left. reflexivity.
  - repeat constructor.
  - rewrite Hs. reflexivity.
Defined.

Lemma unusable_log_is_permanent_witness :
  fst (serve [(Stub.env, Multipart [Stub.jpeg]); (Stub.env, Multipart [Stub.png])]
         (Stub.world_of (Some Stub.cancer_model) (Some BrokenText))) =
  Stub.world_of (Some Stub.cancer_model) (Some BrokenText).
Proof.
  apply (@unusable_log_is_permanent Stub.binding
           [(Stub.env, Multipart [Stub.jpeg]); (Stub.env, Multipart [Stub.png])]
           (Stub.world_of (Some Stub.cancer_model) (Some BrokenText))).
  exact I.
Defined.

Lemma stored_records_stay_well_formed_witness :
  stored (fst (serve [(Stub.env, Multipart [Stub.jpeg]);
                      (Stub.env_later, Multipart [Stub.png])]
                 (Stub.world_of (Some Stub.cancer_model)
                    (Some (JsonText (JArr [Stub.old_doc])))))) =
  [Stub.old_doc; predictionDoc Stub.env cancer; predictionDoc Stub.env_later cancer] /\
  Forall well_formed_record
    (stored (fst (serve [(Stub.env, Multipart [Stub.jpeg]);
                         (Stub.env_later, Multipart [Stub.png])]
                    (Stub.world_of (Some Stub.cancer_model)
                       (Some (JsonText (JArr [Stub.old_doc]))))))).
Proof.
  split; [reflexivity|].
  apply (@stored_records_stay_well_formed Stub.binding).
  constructor; [|constructor].
  exists "a3f1c2d4-0000-4000-8000-000000000001", "2024-04-30T08:00:00.000Z",
    non_cancer.
  split; [right; reflexivity|reflexivity].
Defined.

Lemma created_records_distinct_witness :
  created (snd (serve [(Stub.env, Multipart [Stub.jpeg]);
                       (Stub.env_later, Multipart [Stub.png])]
                  (Stub.world_of (Some Stub.cancer_model) (Some EmptyText)))) =
  [predictionDoc Stub.env cancer; predictionDoc Stub.env_later cancer] /\
  NoDup (created (snd (serve [(Stub.env, Multipart [Stub.jpeg]);
                              (Stub.env_later, Multipart [Stub.png])]
                         (Stub.world_of (Some Stub.cancer_model)
                            (Some EmptyText))))).
Proof.
  split; [reflexivity|].
  apply (@created_records_distinct Stub.binding).
  simpl. constructor.
  - intros [H|[]]. discriminate H.
  - constructor; [intros []|constructor].
Defined.

Lemma error_middleware_statuses_witness :
  responses (effects (@error_middleware Stub.binding
                        (Some "LIMIT_UNEXPECTED_FILE") "Unexpected field"
                        (Stub.world_of None None))) =
  [(500, fail_body "Internal server error")].
Proof.
  apply (proj1 (proj2 (@error_middleware_statuses Stub.binding
                         (Some "LIMIT_UNEXPECTED_FILE") "Unexpected field"
                         (Stub.world_of None None)))).
  discriminate.
Defined.

Lemma request_after_start_uses_loaded_model_witness :
  responses (effects (post_predict Stub.env (Multipart [Stub.png])
                        (world (@start Stub.binding None (Ok Stub.benign_model)
                                  (Stub.world_of None (Some EmptyText)))))) =
  [(201, success_body (predictionDoc Stub.env (classify Stub.benign_model)))].
Proof.
  apply (@request_after_start_uses_loaded_model Stub.binding None
           Stub.benign_model (Stub.world_of None (Some EmptyText)) Stub.env
           Stub.png (Stub.Pixels Stub.bytes3) (Stub.Scores Stub.benign_model)
           Stub.benign_model);
    try reflexivity.
  - vm_compute. discriminate.
  - left. reflexivity.
  - split; reflexivity.
Defined.
